(** * Pupil: recording-type detection, the sounddevice runtime hook and the
      Pye3D plugin's version gate

    A shallow embedding of
    - [pupil_src/shared_modules/pupil_recording/recording_utils.py],
    - [deployment/runtime_hook_sounddevice.py],
    - the module-level statements and the methods of [Pye3DPlugin] in
      [pupil_src/shared_modules/pupil_detector_plugins/pye3d_plugin.py],
    followed by the properties proved about them.

    Python exceptions are explicit results, calls that touch the file system
    are recorded in a trace, and Python dictionaries are [gmap]s. *)

From Stdlib Require Import String Ascii Bool List Arith Lia.
From stdpp Require Import base option list gmap strings pretty.

Local Open Scope string_scope.
Local Open Scope list_scope.

(** ** Python results: exceptions and the trace of file-system calls *)
Module Py.

(** Faults of the operating system or of a parser other than "file not
    found". *)
Inductive io_fault : Type :=
| PermissionError
| NotADirectoryError
| MalformedContent.

Inductive exn : Type :=
| InvalidRecordingException (reason recovery : string)
| FileNotFoundError
| KeyError (key : string)
| OSFault (f : io_fault)
| AssertionError
| ImportError (msg : string).

Inductive outcome (A : Type) : Type :=
| Returns (a : A)
| Raises (e : exn).
Arguments Returns {A} a.
Arguments Raises {A} e.

(** The calls that leave the module: [pathlib.Path] methods and the helpers of
    [pupil_recording.info]. *)
Inductive call : Type :=
| CallResolve
| CallExists
| CallIsDir
| CallIsFile
| CallContainsInfoFile
| CallReadInfoCsv
| CallReadInfoJson.

(** A computation: its result and the calls it made, oldest first. *)
Definition M (A : Type) : Type := (outcome A * list call)%type.

Definition ret {A : Type} (a : A) : M A := (Returns a, []).

Definition raise {A : Type} (e : exn) : M A := (Raises e, []).

Definition perform {A : Type} (c : call) (r : outcome A) : M A := (r, [c]).

Definition bind {A B : Type} (m : M A) (k : A -> M B) : M B :=
  match m with
  | (Returns a, t) => let (r, t') := k a in (r, t ++ t')
  | (Raises e, t) => (Raises e, t)
  end.

(** [try: m except <the exceptions h accepts>: h e] *)
Definition try_except {A : Type} (m : M A) (h : exn -> option (M A)) : M A :=
  match m with
  | (Returns a, t) => (Returns a, t)
  | (Raises e, t) =>
      match h e with
      | Some k => let (r, t') := k in (r, t ++ t')
      | None => (Raises e, t)
      end
  end.

Definition result {A : Type} (m : M A) : outcome A := fst m.
Definition trace {A : Type} (m : M A) : list call := snd m.

(** [assert b] with assertions enabled. *)
Definition py_assert (b : bool) : M unit :=
  if b then ret tt else raise AssertionError.

End Py.

Import Py.

Declare Scope py_scope.
Delimit Scope py_scope with py.
Notation "x <- m ;; k" := (bind m (fun x => k))
  (at level 100, m at next level, right associativity) : py_scope.
Notation "m ;;; k" := (bind m (fun _ => k))
  (at level 100, right associativity) : py_scope.
Local Open Scope py_scope.

(** ** The file system a recording directory lives in *)
Module FS.

(** A parsed JSON document. *)
Inductive json : Type :=
| JNull
| JBool (b : bool)
| JNumber (n : Z)
| JString (s : string)
| JArray (items : json_items)
| JObject (fields : json_fields)
with json_items : Type :=
| JNil
| JCons (x : json) (rest : json_items)
with json_fields : Type :=
| JNoField
| JField (key : string) (value : json) (rest : json_fields).

(** What opening and parsing a fixed file of a directory gives. *)
Inductive file_state (A : Type) : Type :=
| Absent
| Unreadable (f : io_fault)
| Readable (content : A).
Arguments Absent {A}.
Arguments Unreadable {A} f.
Arguments Readable {A} content.

(** The three files the detector looks at: the structured recording-info
    marker, the legacy key-value CSV, and the device JSON. *)
Record directory : Type := {
  new_style_info : bool;
  info_csv : file_state (gmap string string);
  info_json : file_state json;
}.

Inductive node : Type :=
| RegularFile
| Directory (d : directory)
| SpecialFile.

(** [resolve] is [Path.resolve]; [nodes] is keyed by resolved paths. *)
Record filesystem : Type := {
  resolve : string -> string;
  nodes : gmap string node;
}.

Definition is_directory (n : option node) : bool :=
  match n with Some (Directory _) => true | _ => false end.

Definition is_regular (n : option node) : bool :=
  match n with Some RegularFile => true | _ => false end.

Definition Path_resolve (fs : filesystem) (p : string) : M string :=
  perform CallResolve (Returns (resolve fs p)).

Definition Path_exists (fs : filesystem) (q : string) : M bool :=
  perform CallExists (Returns (bool_decide (is_Some (nodes fs !! q)))).

Definition Path_is_dir (fs : filesystem) (q : string) : M bool :=
  perform CallIsDir (Returns (is_directory (nodes fs !! q))).

Definition Path_is_file (fs : filesystem) (q : string) : M bool :=
  perform CallIsFile (Returns (is_regular (nodes fs !! q))).

(** Index of the last occurrence of [c], as [str.rfind]. *)
Fixpoint rfind (c : ascii) (s : string) : option nat :=
  match s with
  | EmptyString => None
  | String a s' =>
      match rfind c s' with
      | Some i => Some (S i)
      | None => if Ascii.eqb a c then Some 0 else None
      end
  end.

(** [Path.name]: the final component. *)
Definition Path_name (q : string) : string :=
  match rfind "/"%char q with
  | Some i => substring (S i) (String.length q - S i) q
  | None => q
  end.

(** [Path.suffix]: from the last dot of the name, unless that dot is the
    first or the last character of the name. *)
Definition Path_suffix (q : string) : string :=
  let name := Path_name q in
  match rfind "."%char name with
  | Some i =>
      if Nat.ltb 0 i && Nat.ltb i (String.length name - 1)
      then substring i (String.length name - i) name
      else ""
  | None => ""
  end.

(** [open(os.path.join(rec_dir, <file>))] followed by parsing. *)
Definition open_in {A : Type} (fs : filesystem) (p : string)
    (file : directory -> file_state A) : outcome A :=
  match nodes fs !! resolve fs p with
  | None => Raises FileNotFoundError
  | Some (Directory d) =>
      match file d with
      | Absent => Raises FileNotFoundError
      | Unreadable f => Raises (OSFault f)
      | Readable c => Returns c
      end
  | Some _ => Raises (OSFault NotADirectoryError)
  end.

End FS.

Import FS.

(** ** recording_utils.py *)
Module RecordingUtils.

(** [InvalidRecordingException.__init__]: the message handed to
    [Exception.__init__]. *)
Definition InvalidRecordingException_message (reason recovery : string) : string :=
  if bool_decide (recovery = "") then reason
  else reason +:+ String "010"%char "" +:+ recovery.

(** [InvalidRecordingException.__str__] *)
Definition InvalidRecordingException_str (reason recovery : string) : string :=
  "InvalidRecordingException: " +:+ InvalidRecordingException_message reason recovery.

(** [class RecordingType(enum.Enum)], with the values [enum.auto()] gives. *)
Inductive RecordingType : Type :=
| MOBILE
| INVISIBLE
| OLD_STYLE
| NEW_STYLE.

Definition RecordingType_value (t : RecordingType) : nat :=
  match t with
  | MOBILE => 1
  | INVISIBLE => 2
  | OLD_STYLE => 3
  | NEW_STYLE => 4
  end.

(** The members of the enumeration, in definition order. *)
Definition RecordingType_members : list RecordingType :=
  [MOBILE; INVISIBLE; OLD_STYLE; NEW_STYLE].

#[global] Instance RecordingType_eq_dec : EqDecision RecordingType.
Proof. solve_decision. Defined.

(** [x in RecordingType] *)
Definition in_RecordingType (x : RecordingType) : bool :=
  bool_decide (x ∈ RecordingType_members).

(** Modelled from the spec: [RecordingInfoFile.does_recording_contain_info_file]
    is not among the sources. The spec: the NewStyle rule "succeeds if a
    structured recording-info marker file ... is present directly in the
    directory". *)
Definition does_recording_contain_info_file (fs : filesystem) (rec_dir : string) : M bool :=
  perform CallContainsInfoFile
    (Returns match nodes fs !! resolve fs rec_dir with
             | Some (Directory d) => new_style_info d
             | _ => false
             end).

(** Modelled from the spec: [recording_info_utils.read_info_csv_file] is not
    among the sources. The spec: the legacy CSV rules need that the file
    "exists"; "not found" conditions are caught only in the Invisible check,
    and every other read failure propagates. The file is opened in the
    directory and parsed into a key-value dictionary. *)
Definition read_info_csv_file (fs : filesystem) (rec_dir : string) : M (gmap string string) :=
  perform CallReadInfoCsv (open_in fs rec_dir info_csv).

(** Modelled from the spec: [recording_info_utils.read_info_json_file] is not
    among the sources. The spec: the device JSON "can be read without a file
    not found condition", malformed content and permission errors are other
    read failures. *)
Definition read_info_json_file (fs : filesystem) (rec_dir : string) : M json :=
  perform CallReadInfoJson (open_in fs rec_dir info_json).

(** [d[k]] *)
Definition getitem (d : gmap string string) (k : string) : M string :=
  match d !! k with
  | Some v => ret v
  | None => raise (KeyError k)
  end.

(** [k in d] *)
Definition contains (d : gmap string string) (k : string) : bool :=
  bool_decide (is_Some (d !! k)).

Definition is_pupil_invisible_recording (fs : filesystem) (rec_dir : string) : M bool :=
  try_except
    (read_info_json_file fs rec_dir ;;; ret true)
    (fun e => match e with
              | FileNotFoundError => Some (ret false)
              | _ => None
              end).

Definition is_pupil_mobile_recording (fs : filesystem) (rec_dir : string) : M bool :=
  info_csv <- read_info_csv_file fs rec_dir ;;
  try_except
    (software <- getitem info_csv "Capture Software" ;;
     ret (String.eqb software "Pupil Mobile"
          && negb (contains info_csv "Data Format Version")))
    (fun e => match e with
              | KeyError _ => Some (ret false)
              | _ => None
              end).

Definition was_recording_opened_in_player_before (fs : filesystem) (rec_dir : string) : M bool :=
  info_csv <- read_info_csv_file fs rec_dir ;;
  ret (contains info_csv "Data Format Version").

Section WithVideoExtensions.

(** [video_capture.utils.VIDEO_EXTS], which is not among the sources. *)
Variable VALID_VIDEO_EXTENSIONS : list string.

Definition normalize_extension (ext : string) : string :=
  match ext with
  | String "." rest => rest
  | _ => ext
  end.

Definition is_video_file (fs : filesystem) (file_path : string) : M bool :=
  is_file <- Path_is_file fs file_path ;;
  if negb is_file then ret false
  else
    let ext := normalize_extension (Path_suffix file_path) in
    let valid_video_extensions := map normalize_extension VALID_VIDEO_EXTENSIONS in
    if negb (bool_decide (ext ∈ valid_video_extensions)) then ret false
    else ret true.

Definition _assert_valid_rec_dir (fs : filesystem) (rec_dir : string) : M unit :=
  rec_dir <- Path_resolve fs rec_dir ;;
  exists_ <- Path_exists fs rec_dir ;;
  if negb exists_ then
    raise (InvalidRecordingException
             ("Target at path does not exist: " +:+ rec_dir) "")
  else
    is_dir <- Path_is_dir fs rec_dir ;;
    if negb is_dir then
      video <- is_video_file fs rec_dir ;;
      if video then
        raise (InvalidRecordingException
                 "The provided path is a video, not a recording directory"
                 "Please provide a recording directory")
      else
        raise (InvalidRecordingException
                 ("Target at path is not a directory: " +:+ rec_dir) "")
    else ret tt.

Definition get_recording_type (fs : filesystem) (rec_dir : string) : M RecordingType :=
  _assert_valid_rec_dir fs rec_dir ;;;
  new_style <- does_recording_contain_info_file fs rec_dir ;;
  if new_style then ret NEW_STYLE
  else
    old_style <- was_recording_opened_in_player_before fs rec_dir ;;
    if old_style then ret OLD_STYLE
    else
      invisible <- is_pupil_invisible_recording fs rec_dir ;;
      if invisible then ret INVISIBLE
      else
        mobile <- is_pupil_mobile_recording fs rec_dir ;;
        if mobile then ret MOBILE
        else
          raise (InvalidRecordingException
                   "There is no info file in the target directory." "").

Definition assert_valid_recording_type (fs : filesystem) (rec_dir : string) : M unit :=
  t <- get_recording_type fs rec_dir ;;
  py_assert (in_RecordingType t).

End WithVideoExtensions.

(** The rules of [get_recording_type] in the order it tries them, and the
    predicate each rule calls. *)
Definition priority : list RecordingType :=
  [NEW_STYLE; OLD_STYLE; INVISIBLE; MOBILE].

Definition predicate (t : RecordingType) (fs : filesystem) (rec_dir : string) : M bool :=
  match t with
  | NEW_STYLE => does_recording_contain_info_file fs rec_dir
  | OLD_STYLE => was_recording_opened_in_player_before fs rec_dir
  | INVISIBLE => is_pupil_invisible_recording fs rec_dir
  | MOBILE => is_pupil_mobile_recording fs rec_dir
  end.

(** A rule matches when its predicate, called on its own, returns [True]. *)
Definition matches (t : RecordingType) (fs : filesystem) (rec_dir : string) : Prop :=
  result (predicate t fs rec_dir) = Returns true.

(** The calls made by the predicates of the rules [ts], in order. *)
Definition calls_of (ts : list RecordingType) (fs : filesystem) (rec_dir : string) : list call :=
  flat_map (fun t => trace (predicate t fs rec_dir)) ts.

End RecordingUtils.

(** ** runtime_hook_sounddevice.py *)
Module SoundDevice.

(** The function objects [ctypes.util.find_library] can be bound to: whatever
    was installed before, or the closure [patch_library] builds. The closure
    reads [self.original_find_library], which is assigned once, in
    [__init__]. *)
Inductive pyfun : Type :=
| Native (f : string -> option string)
| _find_library_patched (original_find_library : pyfun).

(** Calling a function object with a library name; [None] is Python's
    [None]. *)
Fixpoint call_pyfun (f : pyfun) (name : string) : option string :=
  match f with
  | Native g => g name
  | _find_library_patched original =>
      if String.eqb name "portaudio" then Some "libportaudio.so.2"
      else call_pyfun original name
  end.

Record SoundDevicePatcher : Type := {
  original_find_library : pyfun;
}.

(** The interpreter state the hook touches: the module attribute
    [ctypes.util.find_library] and the records sent to the logger. *)
Record interp : Type := {
  find_library : pyfun;
  debug_log : list string;
}.

Definition patch_library (self : SoundDevicePatcher) (st : interp) : interp :=
  {| find_library := _find_library_patched (original_find_library self);
     debug_log := debug_log st
       ++ ["Patched `ctypes.util.find_library` to find sounddevice."] |}.

Definition restore_library (self : SoundDevicePatcher) (st : interp) : interp :=
  {| find_library := original_find_library self;
     debug_log := debug_log st
       ++ ["Restored original `ctypes.util.find_library`."] |}.

(** [SoundDevicePatcher()] *)
Definition __init__ (st : interp) : SoundDevicePatcher * interp :=
  let self := {| original_find_library := find_library st |} in
  (self, patch_library self st).

(** [main], given what [import sounddevice] does to the interpreter (it may
    rebind anything and it may raise). The three log records go to the same
    logger. *)
Definition main (import_sounddevice : interp -> outcome unit * interp) (st : interp) : outcome unit * interp :=
  let (patcher, st1) := __init__ st in
  match import_sounddevice st1 with
  | (Returns _, st2) =>
      let st3 := restore_library patcher st2 in
      (Returns tt,
       {| find_library := find_library st3;
          debug_log := debug_log st3 ++ ["sounddevice import successful!"] |})
  | (Raises e, st2) => (Raises e, st2)
  end.

(** The two methods a holder of a patcher can call, and a run of such calls. *)
Inductive patcher_call : Type :=
| DoPatch
| DoRestore.

Definition run_call (self : SoundDevicePatcher) (st : interp) (c : patcher_call) : interp :=
  match c with
  | DoPatch => patch_library self st
  | DoRestore => restore_library self st
  end.

Definition run_calls (self : SoundDevicePatcher) (cs : list patcher_call) (st : interp) : interp :=
  fold_left (run_call self) cs st.

(** The function at the bottom of a stack of patches, and the height of the
    stack. *)
Fixpoint innermost (f : pyfun) : string -> option string :=
  match f with
  | Native g => g
  | _find_library_patched original => innermost original
  end.

Fixpoint patches (f : pyfun) : nat :=
  match f with
  | Native _ => 0
  | _find_library_patched original => S (patches original)
  end.

End SoundDevice.

(** ** pye3d_plugin.py: the statements run when the module is imported *)
Module Pye3dPlugin.

(** The installed [pye3d] package, as far as the module looks at it. *)
Record pye3d_package : Type := {
  __version__ : option string;
}.

(** What importing the module leaves behind: the names bound at module level,
    oldest first, and the records sent to [logger.info]. *)
Record module_state : Type := {
  bindings : list string;
  info_log : list string;
}.

(** [getattr(pye3d, "__version__", "0.0.1")] *)
Definition version_installed (pye3d : pye3d_package) : string :=
  match __version__ pye3d with
  | Some v => v
  | None => "0.0.1"
  end.

Definition version_supported : string := "0.0.4".

(** The names bound by lines 11 to 25, the imports having succeeded. *)
Definition preamble : list string :=
  ["logging"; "pye3d"; "Detector3D"; "CameraModel"; "DetectorMode"; "ui";
   "normalize"; "PupilDetectorPlugin"; "draw_eyeball_outline";
   "draw_pupil_outline"; "draw_ellipse"; "Eye_Visualizer"; "logger";
   "version_installed"; "version_supported"].

Definition import_module (pye3d : pye3d_package) : outcome unit * module_state :=
  if negb (String.eqb (version_installed pye3d) version_supported) then
    (Raises (ImportError "Unsupported version found"),
     {| bindings := preamble;
        info_log := ["Requires pye3d version " +:+ version_supported
                     +:+ " (Installed: " +:+ version_installed pye3d +:+ ")"] |})
  else
    (Returns tt,
     {| bindings := preamble ++ ["Pye3DPlugin"]; info_log := [] |}).

Definition defines (name : string) (st : module_state) : Prop :=
  name ∈ bindings st.

End Pye3dPlugin.

(** ** pye3d_plugin.py: the methods of [Pye3DPlugin] *)
Module Pye3DPluginClass.

(** Python values as far as the plugin compares them: a number equal to an
    integer, a string, or any other object (a float that is no integer, a
    tuple, an array), which equals no integer and no string. *)
Inductive value : Type :=
| VInt (n : Z)
| VStr (s : string)
| VObject (id : nat).

#[global] Instance value_eq_dec : EqDecision value.
Proof. solve_decision. Defined.

(** [v == s] for a string literal [s], and [v == n] for an integer [n]. *)
Definition eq_str (v : value) (s : string) : bool :=
  match v with
  | VStr s' => String.eqb s' s
  | _ => false
  end.

Definition eq_int (v : value) (n : Z) : bool :=
  match v with
  | VInt n' => Z.eqb n' n
  | _ => false
  end.

Inductive error : Type :=
| KeyError (key : string)
| RuntimeError (msg : string).

Inductive completion (A : Type) : Type :=
| Normal (a : A)
| Raised (e : error).
Arguments Normal {A} a.
Arguments Raised {A} e.

(** The attributes of [g_pool] the plugin reads; [focal_length] and
    [resolution] are those of [g_pool.capture.intrinsics]. *)
Record g_pool : Type := {
  app : string;
  eye_id : Z;
  focal_length : value;
  resolution : value;
}.

Record frame : Type := {
  gray : value;
  timestamp : value;
  width : value;
  height : value;
}.

(** The objects and functions the plugin takes from pye3d, from
    [visualizer_pye3d] and from [methods], none of which is among the
    sources: their types, and the operations the plugin calls on them. *)
Class Externals : Type := {
  camera_model : Type;
  detector3d : Type;
  eye_visualizer : Type;
  (** [CameraModel(focal_length=..., resolution=...)], [==] on camera models,
      [camera.focal_length] and [str(camera)] *)
  CameraModel : value -> value -> camera_model;
  camera_eq : camera_model -> camera_model -> bool;
  camera_focal_length : camera_model -> value;
  camera_str : camera_model -> string;
  (** [Detector3D.reset_camera], [.reset] and [.update_and_detect] *)
  reset_camera : detector3d -> camera_model -> detector3d;
  reset : detector3d -> detector3d;
  update_and_detect :
    detector3d -> gmap string value -> value -> bool ->
    gmap string value * detector3d;
  (** [Eye_Visualizer(g_pool, focal_length)], [.window is not None],
      [.open_window], [.close_window] and [.update_window] *)
  Eye_Visualizer : g_pool -> value -> eye_visualizer;
  has_window : eye_visualizer -> bool;
  open_window : eye_visualizer -> eye_visualizer;
  close_window : eye_visualizer -> eye_visualizer;
  update_window :
    eye_visualizer -> g_pool -> option (gmap string value) -> eye_visualizer;
  (** [normalize(location, (width, height), flip_y=True)] *)
  normalize : value -> value -> value -> value;
}.

(** The calls the plugin makes on those objects and on its logger. *)
Inductive event : Type :=
| LogDebug (msg : string)
| ResetCamera
| Reset
| UpdateAndDetect (datum : gmap string value) (debug : bool)
| NewEyeVisualizer
| OpenWindow
| CloseWindow
| UpdateWindow
| SuperOnNotify.

Section Methods.

Context `{E : Externals}.

(** The attributes of a plugin instance, and the calls it has made so far,
    oldest first. *)
Record plugin : Type := {
  pool : g_pool;
  camera : camera_model;
  detector : detector3d;
  debugVisualizer3D : eye_visualizer;
  _recent_detection_result : option (gmap string value);
  calls : list event;
}.

Definition set_camera (c : camera_model) (self : plugin) : plugin :=
  {| pool := pool self; camera := c; detector := detector self;
     debugVisualizer3D := debugVisualizer3D self;
     _recent_detection_result := _recent_detection_result self;
     calls := calls self |}.

Definition set_detector (d : detector3d) (self : plugin) : plugin :=
  {| pool := pool self; camera := camera self; detector := d;
     debugVisualizer3D := debugVisualizer3D self;
     _recent_detection_result := _recent_detection_result self;
     calls := calls self |}.

Definition set_debugVisualizer3D (v : eye_visualizer) (self : plugin) : plugin :=
  {| pool := pool self; camera := camera self; detector := detector self;
     debugVisualizer3D := v;
     _recent_detection_result := _recent_detection_result self;
     calls := calls self |}.

Definition record (ev : event) (self : plugin) : plugin :=
  {| pool := pool self; camera := camera self; detector := detector self;
     debugVisualizer3D := debugVisualizer3D self;
     _recent_detection_result := _recent_detection_result self;
     calls := calls self ++ [ev] |}.

Definition identifier : string := "3d".

Definition reset_model (self : plugin) : plugin :=
  record Reset (set_detector (reset (detector self)) self).

Definition is_debug_window_open (self : plugin) : bool :=
  has_window (debugVisualizer3D self).

Definition debug_window_open (self : plugin) : plugin :=
  if negb (is_debug_window_open self) then
    record OpenWindow
      (set_debugVisualizer3D (open_window (debugVisualizer3D self)) self)
  else self.

Definition debug_window_close (self : plugin) : plugin :=
  if is_debug_window_open self then
    record CloseWindow
      (set_debugVisualizer3D (close_window (debugVisualizer3D self)) self)
  else self.

Definition debug_window_toggle (self : plugin) : plugin :=
  if negb (is_debug_window_open self) then debug_window_open self
  else debug_window_close self.

Definition debug_window_update (self : plugin) : plugin :=
  if is_debug_window_open self then
    record UpdateWindow
      (set_debugVisualizer3D
         (update_window (debugVisualizer3D self) (pool self)
            (_recent_detection_result self)) self)
  else self.

Definition cleanup (self : plugin) : plugin := debug_window_close self.

Definition _process_camera_changes (self : plugin) : plugin :=
  let camera' := CameraModel (focal_length (pool self)) (resolution (pool self)) in
  if camera_eq (camera self) camera' then self
  else
    let self := record (LogDebug ("Camera model change detected: "
                                  +:+ camera_str camera'
                                  +:+ ". Resetting 3D detector.")) self in
    let self := set_camera camera' self in
    let self := record ResetCamera
                  (set_detector (reset_camera (detector self) (camera self)) self) in
    let debug_window_was_opened := is_debug_window_open self in
    let self := debug_window_close self in
    let self := record NewEyeVisualizer
                  (set_debugVisualizer3D
                     (Eye_Visualizer (pool self) (camera_focal_length (camera self)))
                     self) in
    if debug_window_was_opened then debug_window_open self else self.

(** The [for ... else] loop of [detect]: the first datum whose "method",
    read with [datum.get("method", "")], equals "2d c++". *)
Fixpoint first_2d_datum (previous_detection_results : list (gmap string value)) : option (gmap string value) :=
  match previous_detection_results with
  | [] => None
  | datum :: rest =>
      if eq_str (default (VStr "") (datum !! "method")) "2d c++" then Some datum
      else first_2d_datum rest
  end.

(** [detect(frame, **kwargs)]; the argument is
    [kwargs.get("previous_detection_results")], [None] when the keyword is
    not passed. *)
Definition detect (self : plugin) (frame : frame)
    (previous_detection_results : option (list (gmap string value)))
    : completion (gmap string value) * plugin :=
  let self := _process_camera_changes self in
  let previous_detection_results := default [] previous_detection_results in
  match first_2d_datum previous_detection_results with
  | None => (Raised (RuntimeError "No 2D detection result! Needed for pye3D!"), self)
  | Some datum_2d =>
      let debug := is_debug_window_open self in
      let (result, detector') :=
        update_and_detect (detector self) datum_2d (gray frame) debug in
      let self := record (UpdateAndDetect datum_2d debug) (set_detector detector' self) in
      let eye_id := eye_id (pool self) in
      let result := <["timestamp" := timestamp frame]> result in
      let result := <["topic" := VStr ("pupil." +:+ pretty eye_id +:+ "." +:+ identifier)]> result in
      let result := <["id" := VInt eye_id]> result in
      let result := <["method" := VStr "3d c++"]> result in
      match result !! "location" with
      | None => (Raised (KeyError "location"), self)
      | Some location =>
          (Normal (<["norm_pos" := normalize location (width frame) (height frame)]> result),
           self)
      end
  end.

(** [on_notify(notification)], given what the base class's [on_notify]
    does to the instance. *)
Definition on_notify (super_on_notify : plugin -> gmap string value -> plugin)
    (self : plugin) (notification : gmap string value) : completion unit * plugin :=
  let self := record SuperOnNotify (super_on_notify self notification) in
  match notification !! "subject" with
  | None => (Raised (KeyError "subject"), self)
  | Some subject =>
      if eq_str subject "pupil_detector.3d.reset_model" then
        match notification !! "id" with
        | None => (Normal tt, reset_model self)
        | Some id =>
            if eq_int id (eye_id (pool self)) then (Normal tt, reset_model self)
            else (Normal tt, self)
        end
      else (Normal tt, self)
  end.

(** What the plugin relies on from [Eye_Visualizer]: after [open_window]
    there is a window, after [close_window] there is none, and a new
    visualizer has none. *)
Definition opens_window : Prop := forall v, has_window (open_window v) = true.
Definition closes_window : Prop := forall v, has_window (close_window v) = false.
Definition starts_without_window : Prop :=
  forall g f, has_window (Eye_Visualizer g f) = false.

(** A datum of the 2D detector. *)
Definition is_2d (datum : gmap string value) : Prop :=
  datum !! "method" = Some (VStr "2d c++").

End Methods.

(** A small instance of the externals, for the examples: a camera model is
    its two arguments, a detector counts its resets, a visualizer is whether
    it has a window. *)
#[local] Instance toy_externals : Externals := {|
  camera_model := value * value;
  detector3d := nat;
  eye_visualizer := bool;
  CameraModel f r := (f, r);
  camera_eq a b := bool_decide (a = b);
  camera_focal_length c := fst c;
  camera_str c := "CameraModel";
  reset_camera d c := 0;
  reset d := S d;
  update_and_detect d datum gray debug :=
    (<["location" := VObject 7]> (<["method" := VStr "pye3d"]> datum), d);
  Eye_Visualizer g f := false;
  has_window v := v;
  open_window v := true;
  close_window v := false;
  update_window v g r := v;
  normalize location w h := VObject 8;
|}.

Definition toy_pool : g_pool :=
  {| app := "capture"; eye_id := 1; focal_length := VObject 1; resolution := VObject 2 |}.

Definition toy_frame : frame :=
  {| gray := VObject 3; timestamp := VObject 4; width := VInt 192; height := VInt 192 |}.

(** A plugin whose debug window is open and whose camera model is stale. *)
Definition toy_plugin : plugin :=
  {| pool := toy_pool; camera := (VObject 0, VObject 2); detector := 0;
     debugVisualizer3D := true; _recent_detection_result := None; calls := [] |}.

Definition toy_previous : list (gmap string value) :=
  [ {[ "method" := VStr "other" ]};
    {[ "method" := VStr "2d c++"; "confidence" := VObject 5 ]};
    {[ "method" := VStr "2d c++"; "confidence" := VObject 6 ]} ].

End Pye3DPluginClass.

(** ** Sample data and the specification's reading of the extension test *)
Module Samples.

Import RecordingUtils.

(** A video-extension table for the examples. *)
Definition sample_video_extensions : list string :=
  ["mp4"; "mjpeg"; "h264"; "mkv"; "avi"; "fake"].

Definition ascii_lower (c : ascii) : ascii :=
  let n := nat_of_ascii c in
  if Nat.leb 65 n && Nat.leb n 90 then ascii_of_nat (n + 32) else c.

Fixpoint lower (s : string) : string :=
  match s with
  | EmptyString => EmptyString
  | String c s' => String (ascii_lower c) (lower s')
  end.

(** The extension test as the specification words it: case-insensitive, the
    leading dot stripped. *)
Definition spec_is_video_extension (exts : list string) (q : string) : bool :=
  bool_decide (lower (normalize_extension (Path_suffix q))
               ∈ map (fun e => lower (normalize_extension e)) exts).

Definition empty_directory : directory :=
  {| new_style_info := false; info_csv := Absent; info_json := Absent |}.

Definition invisible_directory : directory :=
  {| new_style_info := false; info_csv := Absent;
     info_json := Readable (JObject (JField "data_format_version" (JString "1.0") JNoField)) |}.

Definition mobile_csv : gmap string string :=
  {[ "Capture Software" := "Pupil Mobile"; "Recording Name" := "2019_01_01" ]}.

Definition player_csv : gmap string string :=
  {[ "Capture Software" := "Pupil Capture"; "Data Format Version" := "1.15" ]}.

Definition plain_csv : gmap string string :=
  {[ "Recording Name" := "2019_01_01" ]}.

Definition sample_fs : filesystem :=
  {| resolve := fun p => p;
     nodes :=
       {[ "/recordings/world.mp4" := RegularFile;
          "/recordings/world.MP4" := RegularFile;
          "/recordings/notes.txt" := RegularFile;
          "/recordings/empty" := Directory empty_directory;
          "/recordings/invisible" := Directory invisible_directory;
          "/recordings/both" :=
            Directory {| new_style_info := true;
                         info_csv := Readable mobile_csv;
                         info_json := Unreadable MalformedContent |};
          "/recordings/mobile_and_invisible" :=
            Directory {| new_style_info := false;
                         info_csv := Readable mobile_csv;
                         info_json := Readable JNull |};
          "/recordings/mobile" :=
            Directory {| new_style_info := false;
                         info_csv := Readable mobile_csv;
                         info_json := Absent |};
          "/recordings/plain" :=
            Directory {| new_style_info := false;
                         info_csv := Readable plain_csv;
                         info_json := Absent |};
          "/recordings/broken_json" :=
            Directory {| new_style_info := false;
                         info_csv := Readable plain_csv;
                         info_json := Unreadable MalformedContent |} ]} |}.

End Samples.

Import RecordingUtils Samples.

(** * Properties *)

(** ** The monad *)

Lemma bind_result_raises {A B : Type} (m : M A) (k : A -> M B) (e : exn) :
  result m = Raises e -> bind m k = (Raises e, trace m).
Proof.
  destruct m as [[a|e'] t]; unfold result, trace; simpl; intros H.
  - discriminate.
  - congruence.
Qed.

Lemma bind_returns {A B : Type} (a : A) (t : list call) (k : A -> M B) :
  bind (Returns a, t) k = (result (k a), t ++ trace (k a)).
Proof. unfold result, trace; simpl. destruct (k a); reflexivity. Qed.

(** ** Validation *)

Lemma Path_exists_Some (fs : filesystem) (q : string) (n : node) :
  nodes fs !! q = Some n -> Path_exists fs q = (Returns true, [CallExists]).
Proof.
  intros H. unfold Path_exists, perform. rewrite H.
  rewrite bool_decide_eq_true_2; [reflexivity | eauto].
Qed.

Lemma Path_exists_None (fs : filesystem) (q : string) :
  nodes fs !! q = None -> Path_exists fs q = (Returns false, [CallExists]).
Proof.
  intros H. unfold Path_exists, perform. rewrite H.
  rewrite bool_decide_eq_false_2; [reflexivity | ].
  intros [x Hx]; discriminate.
Qed.

(** [_assert_valid_rec_dir] by what lies at the resolved path. *)
Lemma assert_valid_rec_dir_cases (exts : list string) (fs : filesystem) (p : string) :
  _assert_valid_rec_dir exts fs p =
  match nodes fs !! resolve fs p with
  | None =>
      (Raises (InvalidRecordingException
                 ("Target at path does not exist: " +:+ resolve fs p) ""),
       [CallResolve; CallExists])
  | Some (Directory _) => (Returns tt, [CallResolve; CallExists; CallIsDir])
  | Some RegularFile =>
      (if bool_decide (normalize_extension (Path_suffix (resolve fs p))
                       ∈ map normalize_extension exts)
       then Raises (InvalidRecordingException
                      "The provided path is a video, not a recording directory"
                      "Please provide a recording directory")
       else Raises (InvalidRecordingException
                      ("Target at path is not a directory: " +:+ resolve fs p) ""),
       [CallResolve; CallExists; CallIsDir; CallIsFile])
  | Some SpecialFile =>
      (Raises (InvalidRecordingException
                 ("Target at path is not a directory: " +:+ resolve fs p) ""),
       [CallResolve; CallExists; CallIsDir; CallIsFile])
  end.
Proof.
  unfold _assert_valid_rec_dir, Path_resolve, perform.
  cbn [bind].
  destruct (nodes fs !! resolve fs p) as [n|] eqn:H.
  - rewrite (Path_exists_Some _ _ _ H). cbn [bind negb].
    unfold Path_is_dir, is_video_file, Path_is_file, perform. rewrite H.
    destruct n as [ | d | ]; cbn.
    + destruct (bool_decide _); reflexivity.
    + reflexivity.
    + reflexivity.
  - rewrite (Path_exists_None _ _ H). reflexivity.
Qed.

Lemma assert_valid_rec_dir_directory (exts : list string) (fs : filesystem) (p : string) (d : directory) :
  nodes fs !! resolve fs p = Some (Directory d) ->
  _assert_valid_rec_dir exts fs p = (Returns tt, [CallResolve; CallExists; CallIsDir]).
Proof. intros H. rewrite assert_valid_rec_dir_cases, H. reflexivity. Qed.

Lemma assert_valid_rec_dir_returns (exts : list string) (fs : filesystem) (p : string) :
  result (_assert_valid_rec_dir exts fs p) = Returns tt ->
  exists d, nodes fs !! resolve fs p = Some (Directory d).
Proof.
  rewrite assert_valid_rec_dir_cases.
  destruct (nodes fs !! resolve fs p) as [[ | d | ]|]; cbn; try discriminate; eauto.
  destruct (bool_decide _); discriminate.
Qed.

Lemma assert_valid_rec_dir_trace (exts : list string) (fs : filesystem) (p : string) :
  Forall (fun c => c ∈ [CallResolve; CallExists; CallIsDir; CallIsFile])
         (trace (_assert_valid_rec_dir exts fs p)).
Proof.
  rewrite assert_valid_rec_dir_cases.
  destruct (nodes fs !! resolve fs p) as [[ | d | ]|]; cbn;
    repeat constructor.
Qed.

(** ** The format predicates on a directory *)

Lemma open_in_directory {A : Type} (fs : filesystem) (p : string) (d : directory)
    (file : directory -> file_state A) :
  nodes fs !! resolve fs p = Some (Directory d) ->
  open_in fs p file =
  match file d with
  | Absent => Raises FileNotFoundError
  | Unreadable f => Raises (OSFault f)
  | Readable c => Returns c
  end.
Proof. intros H. unfold open_in. rewrite H. reflexivity. Qed.

Lemma contains_Some (m : gmap string string) (k v : string) :
  m !! k = Some v -> contains m k = true.
Proof. intros H. unfold contains. rewrite H. apply bool_decide_eq_true_2. eauto. Qed.

Lemma contains_None (m : gmap string string) (k : string) :
  m !! k = None -> contains m k = false.
Proof.
  intros H. unfold contains. rewrite H. apply bool_decide_eq_false_2.
  intros [x Hx]; discriminate.
Qed.

Lemma does_recording_contain_info_file_directory (fs : filesystem) (p : string) (d : directory) :
  nodes fs !! resolve fs p = Some (Directory d) ->
  does_recording_contain_info_file fs p = (Returns (new_style_info d), [CallContainsInfoFile]).
Proof. intros H. unfold does_recording_contain_info_file. rewrite H. reflexivity. Qed.

Lemma was_recording_opened_in_player_before_cases (fs : filesystem) (p : string) :
  was_recording_opened_in_player_before fs p =
  (match open_in fs p info_csv with
   | Returns m => Returns (contains m "Data Format Version")
   | Raises e => Raises e
   end, [CallReadInfoCsv]).
Proof.
  unfold was_recording_opened_in_player_before, read_info_csv_file, perform.
  destruct (open_in fs p info_csv); reflexivity.
Qed.

Lemma is_pupil_invisible_recording_cases (fs : filesystem) (p : string) :
  is_pupil_invisible_recording fs p =
  (match open_in fs p info_json with
   | Returns _ => Returns true
   | Raises FileNotFoundError => Returns false
   | Raises e => Raises e
   end, [CallReadInfoJson]).
Proof.
  unfold is_pupil_invisible_recording, read_info_json_file, perform.
  destruct (open_in fs p info_json) as [j|[]]; reflexivity.
Qed.

Lemma is_pupil_mobile_recording_cases (fs : filesystem) (p : string) :
  is_pupil_mobile_recording fs p =
  (match open_in fs p info_csv with
   | Returns m =>
       Returns match m !! "Capture Software" with
               | Some software =>
                   String.eqb software "Pupil Mobile"
                   && negb (contains m "Data Format Version")
               | None => false
               end
   | Raises e => Raises e
   end, [CallReadInfoCsv]).
Proof.
  unfold is_pupil_mobile_recording, read_info_csv_file, perform, getitem.
  destruct (open_in fs p info_csv) as [m|e]; [|reflexivity].
  cbn [bind]. destruct (m !! "Capture Software"); reflexivity.
Qed.

(** Rewrite the detector on a path known to hold the directory [d]. *)
Ltac on_directory H :=
  unfold get_recording_type, matches, predicate in *;
  rewrite ?(assert_valid_rec_dir_directory _ _ _ _ H) in *;
  rewrite ?(does_recording_contain_info_file_directory _ _ _ H) in *;
  rewrite ?was_recording_opened_in_player_before_cases,
    ?is_pupil_invisible_recording_cases, ?is_pupil_mobile_recording_cases in *;
  rewrite ?(open_in_directory _ _ _ _ H) in *.

Ltac no_earlier_match :=
  let t' := fresh "t'" in
  let Hin := fresh "Hin" in
  intros t' Hin;
  repeat (apply elem_of_cons in Hin as [->|Hin]);
  [ .. | apply elem_of_nil in Hin; contradiction ];
  cbn; congruence.

Ltac first_match t earlier later :=
  exists t, earlier, later;
  split; [reflexivity|];
  split;
  [ first [ intros ? Hin; apply elem_of_nil in Hin; contradiction
          | no_earlier_match ] |];
  split; cbn; congruence.

(** ** Classification *)

(** Without a legacy CSV file and without the structured marker, the second
    rule's read fails and nothing catches it, whatever else the directory
    holds. *)
Lemma get_recording_type_without_csv (exts : list string) (fs : filesystem) (p : string) (d : directory) :
  nodes fs !! resolve fs p = Some (Directory d) ->
  new_style_info d = false ->
  info_csv d = Absent ->
  get_recording_type exts fs p =
    (Raises FileNotFoundError,
     [CallResolve; CallExists; CallIsDir; CallContainsInfoFile; CallReadInfoCsv]).
Proof.
  intros Hd Hnew Hcsv. on_directory Hd. rewrite Hnew, Hcsv. reflexivity.
Qed.

(** The "no info file" error is raised only for a directory that does hold a
    readable legacy CSV file (one without "Data Format Version" that does not
    name "Pupil Mobile"), no structured marker and no device JSON. *)
Lemma no_info_file_error_needs_csv (exts : list string) (fs : filesystem) (p : string) :
  result (get_recording_type exts fs p) =
    Raises (InvalidRecordingException "There is no info file in the target directory." "") ->
  exists (d : directory) (m : gmap string string),
    nodes fs !! resolve fs p = Some (Directory d)
    /\ new_style_info d = false
    /\ info_csv d = Readable m
    /\ m !! "Data Format Version" = None
    /\ m !! "Capture Software" <> Some "Pupil Mobile"
    /\ info_json d = Absent.
Proof.
  unfold get_recording_type.
  rewrite assert_valid_rec_dir_cases.
  destruct (nodes fs !! resolve fs p) as [[ | d | ]|] eqn:Hd;
    cbn [bind]; try discriminate.
  { destruct (bool_decide _); discriminate. }
  rewrite (does_recording_contain_info_file_directory _ _ _ Hd).
  rewrite was_recording_opened_in_player_before_cases,
    is_pupil_invisible_recording_cases, is_pupil_mobile_recording_cases.
  rewrite !(open_in_directory _ _ _ _ Hd).
  destruct d as [ns csv js]; cbn.
  destruct ns, csv as [ | f | m], js as [ | f' | j]; cbn; try discriminate.
  all: destruct (m !! "Data Format Version") as [v|] eqn:Hv;
    [ rewrite (contains_Some _ _ _ Hv) | rewrite (contains_None _ _ Hv) ];
    cbn; try discriminate.
  destruct (m !! "Capture Software") as [software|] eqn:Hs; cbn.
  - destruct (String.eqb software "Pupil Mobile") eqn:He; cbn; [discriminate|].
    intros _. eexists _, m. repeat split; try reflexivity; try assumption.
    rewrite Hs. intros [= ->]. rewrite String.eqb_refl in He. discriminate.
  - intros _. eexists _, m. repeat split; try reflexivity; try assumption.
    rewrite Hs. discriminate.
Qed.

(** C1 (the code departs from it): on a valid directory holding none of the
    marker files, [get_recording_type] does not reach its "There is no info
    file in the target directory." error: the legacy CSV read of the OldStyle
    rule raises [FileNotFoundError], which propagates. *)
Theorem get_recording_type_empty_directory :
  nodes sample_fs !! resolve sample_fs "/recordings/empty" = Some (Directory empty_directory)
  /\ get_recording_type sample_video_extensions sample_fs "/recordings/empty" =
       (Raises FileNotFoundError,
        [CallResolve; CallExists; CallIsDir; CallContainsInfoFile; CallReadInfoCsv]).
Proof. split; vm_compute; reflexivity. Qed.

(** C3 (the code departs from it): on a valid directory holding the device
    JSON file and no legacy CSV file, [get_recording_type] does not return
    [INVISIBLE]: the legacy CSV read of the OldStyle rule raises
    [FileNotFoundError] before the Invisible rule is tried. *)
Theorem get_recording_type_invisible_directory :
  nodes sample_fs !! resolve sample_fs "/recordings/invisible" = Some (Directory invisible_directory)
  /\ result (is_pupil_invisible_recording sample_fs "/recordings/invisible") = Returns true
  /\ get_recording_type sample_video_extensions sample_fs "/recordings/invisible" =
       (Raises FileNotFoundError,
        [CallResolve; CallExists; CallIsDir; CallContainsInfoFile; CallReadInfoCsv]).
Proof. repeat split; vm_compute; reflexivity. Qed.

(** C2: on a valid recording directory, (a) when the structured marker is
    present the result is [NEW_STYLE] whatever the legacy CSV and the device
    JSON hold, and only the first rule's predicate is called; (b) when the
    predicates of two different rules both hold, the result is the variant of
    the first rule, in the order NEW_STYLE, OLD_STYLE, INVISIBLE, MOBILE, whose
    predicate holds, and the calls made are those of validation followed by
    those of the rules up to and including that one: no later predicate is
    evaluated. *)
Theorem first_matching_rule_wins (exts : list string) (fs : filesystem) (p : string) :
  result (_assert_valid_rec_dir exts fs p) = Returns tt ->
  (matches NEW_STYLE fs p ->
   get_recording_type exts fs p =
     (Returns NEW_STYLE,
      trace (_assert_valid_rec_dir exts fs p) ++ [CallContainsInfoFile]))
  /\
  (forall t1 t2 : RecordingType,
     t1 <> t2 -> matches t1 fs p -> matches t2 fs p ->
     exists t earlier later,
       priority = earlier ++ t :: later /\
       (forall t', t' ∈ earlier -> ~ matches t' fs p) /\
       matches t fs p /\
       get_recording_type exts fs p =
         (Returns t,
          trace (_assert_valid_rec_dir exts fs p) ++ calls_of (earlier ++ [t]) fs p)).
Proof.
  intros Hvalid.
  destruct (assert_valid_rec_dir_returns _ _ _ Hvalid) as [d Hd].
  split.
  - intros Hnew. on_directory Hd. cbn in Hnew.
    injection Hnew as ->. reflexivity.
  - intros t1 t2 Hne H1 H2.
    unfold calls_of.
    destruct d as [ns csv js].
    destruct t1, t2; try congruence; on_directory Hd; cbn in H1, H2;
      destruct ns, csv as [ | f | m], js as [ | f' | j];
      cbn in H1, H2; try discriminate.
    all: cbn.
    all: try (destruct (contains m "Data Format Version"));
      try (destruct (m !! "Capture Software") as [software|];
           [destruct (String.eqb software "Pupil Mobile")|]);
      cbn in H1, H2; try discriminate.
    all: first
      [ first_match NEW_STYLE (@nil RecordingType) [OLD_STYLE; INVISIBLE; MOBILE]
      | first_match OLD_STYLE [NEW_STYLE] [INVISIBLE; MOBILE]
      | first_match INVISIBLE [NEW_STYLE; OLD_STYLE] [MOBILE] ].
Qed.

Lemma first_matching_rule_wins_witness :
  get_recording_type sample_video_extensions sample_fs "/recordings/both" =
    (Returns NEW_STYLE,
     [CallResolve; CallExists; CallIsDir; CallContainsInfoFile])
  /\
  exists t earlier later,
    priority = earlier ++ t :: later /\
    (forall t', t' ∈ earlier ->
                ~ matches t' sample_fs "/recordings/mobile_and_invisible") /\
    matches t sample_fs "/recordings/mobile_and_invisible" /\
    get_recording_type sample_video_extensions sample_fs
        "/recordings/mobile_and_invisible" =
      (Returns t,
       trace (_assert_valid_rec_dir sample_video_extensions sample_fs
                "/recordings/mobile_and_invisible")
       ++ calls_of (earlier ++ [t]) sample_fs "/recordings/mobile_and_invisible").
Proof.
  split.
  - apply (first_matching_rule_wins sample_video_extensions sample_fs
             "/recordings/both"); vm_compute; reflexivity.
  - apply (proj2 (first_matching_rule_wins sample_video_extensions sample_fs
                    "/recordings/mobile_and_invisible" eq_refl)
             INVISIBLE MOBILE).
    + discriminate.
    + vm_compute; reflexivity.
    + vm_compute; reflexivity.
Defined.

(** ** Validation of the path *)

(** C4, as the specification words it, fails: the suffix [.MP4] is a known
    video extension when compared case-insensitively, yet the regular file
    [/recordings/world.MP4] is rejected as "not a directory", with an empty
    recovery. *)
Lemma uppercase_video_extension_not_recognised :
  nodes sample_fs !! resolve sample_fs "/recordings/world.MP4" = Some RegularFile
  /\ spec_is_video_extension sample_video_extensions
       (resolve sample_fs "/recordings/world.MP4") = true
  /\ result (_assert_valid_rec_dir sample_video_extensions sample_fs "/recordings/world.MP4") =
       Raises (InvalidRecordingException
                 "Target at path is not a directory: /recordings/world.MP4" "").
Proof. repeat split; vm_compute; reflexivity. Qed.

(** C4, amended: for every path that resolves to an existing regular file
    whose suffix, with its leading dot stripped, is equal (case-sensitively) to
    a known video extension with its leading dot stripped, validation fails
    with reason "The provided path is a video, not a recording directory" and
    recovery "Please provide a recording directory". *)
Theorem video_file_is_rejected (exts : list string) (fs : filesystem) (p : string) :
  nodes fs !! resolve fs p = Some RegularFile ->
  normalize_extension (Path_suffix (resolve fs p)) ∈ map normalize_extension exts ->
  result (_assert_valid_rec_dir exts fs p) =
    Raises (InvalidRecordingException
              "The provided path is a video, not a recording directory"
              "Please provide a recording directory")
  /\ "Please provide a recording directory" <> "".
Proof.
  intros Hfile Hext. split; [|discriminate].
  rewrite assert_valid_rec_dir_cases, Hfile. cbn.
  rewrite bool_decide_eq_true_2 by exact Hext. reflexivity.
Qed.

Lemma video_file_is_rejected_witness :
  result (_assert_valid_rec_dir sample_video_extensions sample_fs "/recordings/world.mp4") =
    Raises (InvalidRecordingException
              "The provided path is a video, not a recording directory"
              "Please provide a recording directory")
  /\ "Please provide a recording directory" <> "".
Proof.
  apply (video_file_is_rejected sample_video_extensions sample_fs "/recordings/world.mp4").
  - vm_compute; reflexivity.
  - vm_compute. repeat constructor.
Defined.

(** A regular file with any other suffix is "not a directory". *)
Lemma other_file_is_rejected (exts : list string) (fs : filesystem) (p : string) :
  nodes fs !! resolve fs p = Some RegularFile ->
  normalize_extension (Path_suffix (resolve fs p)) ∉ map normalize_extension exts ->
  result (_assert_valid_rec_dir exts fs p) =
    Raises (InvalidRecordingException
              ("Target at path is not a directory: " +:+ resolve fs p) "").
Proof.
  intros Hfile Hext.
  rewrite assert_valid_rec_dir_cases, Hfile. cbn.
  rewrite bool_decide_eq_false_2 by exact Hext. reflexivity.
Qed.

Lemma missing_path_is_rejected (exts : list string) (fs : filesystem) (p : string) :
  nodes fs !! resolve fs p = None ->
  result (_assert_valid_rec_dir exts fs p) =
    Raises (InvalidRecordingException
              ("Target at path does not exist: " +:+ resolve fs p) "").
Proof. intros H. rewrite assert_valid_rec_dir_cases, H. reflexivity. Qed.

(** C5: when validation fails, [get_recording_type] fails with the same
    exception and has made exactly the calls validation made, all of them
    [Path] methods: no format check was run. *)
Theorem get_recording_type_propagates_validation (exts : list string) (fs : filesystem) (p : string) (e : exn) :
  result (_assert_valid_rec_dir exts fs p) = Raises e ->
  get_recording_type exts fs p = (Raises e, trace (_assert_valid_rec_dir exts fs p))
  /\ Forall (fun c => c ∈ [CallResolve; CallExists; CallIsDir; CallIsFile])
            (trace (get_recording_type exts fs p)).
Proof.
  intros Hfail.
  assert (Heq : get_recording_type exts fs p
                = (Raises e, trace (_assert_valid_rec_dir exts fs p))).
  { unfold get_recording_type. apply bind_result_raises. exact Hfail. }
  split; [exact Heq|].
  rewrite Heq. apply assert_valid_rec_dir_trace.
Qed.

Lemma get_recording_type_propagates_validation_witness :
  get_recording_type sample_video_extensions sample_fs "/recordings/notes.txt" =
    (Raises (InvalidRecordingException
               "Target at path is not a directory: /recordings/notes.txt" ""),
     trace (_assert_valid_rec_dir sample_video_extensions sample_fs "/recordings/notes.txt"))
  /\ Forall (fun c => c ∈ [CallResolve; CallExists; CallIsDir; CallIsFile])
            (trace (get_recording_type sample_video_extensions sample_fs "/recordings/notes.txt")).
Proof.
  apply (get_recording_type_propagates_validation sample_video_extensions sample_fs
           "/recordings/notes.txt").
  vm_compute; reflexivity.
Defined.

(** ** The format predicates *)

(** C6: [is_pupil_invisible_recording] returns [False] exactly when reading
    the device JSON raises [FileNotFoundError], returns [True] whenever the
    read returns, and raises any other exception of the read unchanged. *)
Theorem is_pupil_invisible_recording_outcomes (fs : filesystem) (p : string) :
  (result (is_pupil_invisible_recording fs p) = Returns false
   <-> result (read_info_json_file fs p) = Raises FileNotFoundError)
  /\ (forall j : json,
        result (read_info_json_file fs p) = Returns j ->
        result (is_pupil_invisible_recording fs p) = Returns true)
  /\ (forall e : exn,
        result (read_info_json_file fs p) = Raises e ->
        e <> FileNotFoundError ->
        result (is_pupil_invisible_recording fs p) = Raises e).
Proof.
  rewrite is_pupil_invisible_recording_cases.
  unfold read_info_json_file, perform, result; cbn [fst].
  destruct (open_in fs p info_json) as [j|e].
  - split; [split; discriminate|]. split; [reflexivity|discriminate].
  - split; [|split].
    + destruct e; split; intros H; try discriminate; reflexivity.
    + discriminate.
    + intros e' [= <-] Hne. destruct e; congruence.
Qed.

(** C7: [is_pupil_mobile_recording] returns [True] if and only if the legacy
    CSV is read, its "Capture Software" entry is "Pupil Mobile" and it has no
    "Data Format Version" key; when the read returns and "Capture Software" is
    missing it returns [False], and it never raises [KeyError]. *)
Theorem is_pupil_mobile_recording_outcomes (fs : filesystem) (p : string) :
  (result (is_pupil_mobile_recording fs p) = Returns true
   <-> exists info : gmap string string,
         result (read_info_csv_file fs p) = Returns info
         /\ info !! "Capture Software" = Some "Pupil Mobile"
         /\ info !! "Data Format Version" = None)
  /\ (forall info : gmap string string,
        result (read_info_csv_file fs p) = Returns info ->
        info !! "Capture Software" = None ->
        result (is_pupil_mobile_recording fs p) = Returns false)
  /\ (forall k : string,
        result (is_pupil_mobile_recording fs p) <> Raises (KeyError k)).
Proof.
  rewrite is_pupil_mobile_recording_cases.
  unfold read_info_csv_file, perform, result; cbn [fst].
  unfold open_in.
  destruct (nodes fs !! resolve fs p) as [[ | d | ]|];
    try (split; [split; [discriminate | intros (info & H & _); discriminate]
                | split; [discriminate | discriminate]]).
  destruct (info_csv d) as [ | f | m];
    try (split; [split; [discriminate | intros (info & H & _); discriminate]
                | split; [discriminate | discriminate]]).
  split; [|split].
  - split.
    + intros [= H]. exists m. split; [reflexivity|].
      destruct (m !! "Capture Software") as [software|]; [|discriminate].
      apply andb_true_iff in H as [Hs Hv].
      apply String.eqb_eq in Hs as ->. split; [reflexivity|].
      apply negb_true_iff in Hv. unfold contains in Hv.
      destruct (m !! "Data Format Version") eqn:Hl; [|reflexivity].
      rewrite bool_decide_eq_true_2 in Hv by eauto. discriminate.
    + intros (info & [= <-] & Hs & Hv). rewrite Hs.
      rewrite (contains_None _ _ Hv). reflexivity.
  - intros info [= <-] Hs. rewrite Hs. reflexivity.
  - discriminate.
Qed.

(** ** The assertion on the recording type *)

Lemma in_RecordingType_all (t : RecordingType) : in_RecordingType t = true.
Proof. destruct t; reflexivity. Qed.

Lemma get_recording_type_no_assertion_error (exts : list string) (fs : filesystem) (p : string) :
  result (get_recording_type exts fs p) <> Raises AssertionError.
Proof.
  unfold get_recording_type.
  rewrite assert_valid_rec_dir_cases.
  destruct (nodes fs !! resolve fs p) as [[ | d | ]|] eqn:Hd;
    cbn [bind]; try discriminate.
  - destruct (bool_decide _); discriminate.
  - rewrite (does_recording_contain_info_file_directory _ _ _ Hd).
    rewrite was_recording_opened_in_player_before_cases,
      is_pupil_invisible_recording_cases, is_pupil_mobile_recording_cases.
    rewrite !(open_in_directory _ _ _ _ Hd).
    destruct d as [ns csv js]; cbn.
    destruct ns, csv as [ | f | m], js as [ | f' | j]; cbn; try discriminate.
    all: destruct (contains m "Data Format Version"); cbn; try discriminate.
    all: destruct (m !! "Capture Software") as [software|]; cbn; try discriminate.
    all: destruct (String.eqb software "Pupil Mobile"); cbn; discriminate.
Qed.

(** C8: whatever [get_recording_type] returns is a member of
    [RecordingType], so [assert_valid_recording_type] returns exactly when
    [get_recording_type] returns, raises what [get_recording_type] raises, and
    never raises [AssertionError]. *)
Theorem assert_valid_recording_type_never_fails (exts : list string) (fs : filesystem) (p : string) :
  (forall t : RecordingType,
     result (get_recording_type exts fs p) = Returns t ->
     in_RecordingType t = true /\ t ∈ RecordingType_members)
  /\ (result (assert_valid_recording_type exts fs p) = Returns tt
      <-> exists t, result (get_recording_type exts fs p) = Returns t)
  /\ (forall e : exn,
        result (get_recording_type exts fs p) = Raises e ->
        result (assert_valid_recording_type exts fs p) = Raises e)
  /\ result (assert_valid_recording_type exts fs p) <> Raises AssertionError.
Proof.
  pose proof (get_recording_type_no_assertion_error exts fs p) as Hno.
  unfold assert_valid_recording_type.
  destruct (get_recording_type exts fs p) as [[t|e] tr]; unfold result in *; cbn in *.
  - rewrite in_RecordingType_all. cbn.
    split; [|split; [|split]].
    + intros t' [= <-]. split; [apply in_RecordingType_all|].
      destruct t; unfold RecordingType_members; set_solver.
    + split; eauto.
    + discriminate.
    + discriminate.
  - split; [|split; [|split]].
    + discriminate.
    + split; [discriminate | intros [t H]; discriminate].
    + intros e' [= <-]. reflexivity.
    + intros [= ->]. apply Hno. reflexivity.
Qed.

(** ** The sounddevice runtime hook *)

Import SoundDevice.

(** C9: for a patcher built in state [st], and any later state [st'] of the
    interpreter: [original_find_library] is the function [st] had; while the
    patch is installed (after [__init__], or after a later [patch_library]),
    [find_library] gives "libportaudio.so.2" for "portaudio" and for any other
    name what the original gives; after [restore_library], [find_library] is
    the original function object again. *)
Theorem patch_then_restore (st st' : interp) (name : string) :
  let self := fst (__init__ st) in
  let installed := snd (__init__ st) in
  original_find_library self = find_library st
  /\ call_pyfun (find_library installed) "portaudio" = Some "libportaudio.so.2"
  /\ (name <> "portaudio" ->
      call_pyfun (find_library installed) name = call_pyfun (find_library st) name)
  /\ find_library (patch_library self st') = find_library installed
  /\ find_library (restore_library self installed) = find_library st
  /\ find_library (restore_library self st') = find_library st.
Proof.
  cbn. repeat split.
  intros Hne. apply String.eqb_neq in Hne. rewrite Hne. reflexivity.
Qed.

(** [main] restores the original function when the import returns. *)
Lemma main_restores (import_sounddevice : interp -> outcome unit * interp) (st st2 : interp) :
  import_sounddevice (snd (__init__ st)) = (Returns tt, st2) ->
  exists st3, main import_sounddevice st = (Returns tt, st3)
              /\ find_library st3 = find_library st.
Proof.
  intros Himport. unfold main. cbn in *. rewrite Himport.
  eexists; split; reflexivity.
Qed.

(** ** The Pye3D plugin's version gate *)

Import Pye3dPlugin.

(** C10: importing the module raises [ImportError] whenever the installed
    version differs from "0.0.4"; a package without [__version__] counts as
    "0.0.1" and is rejected; [Pye3DPlugin] is bound exactly when the import
    returns, which is exactly when the installed version is "0.0.4". *)
Theorem import_requires_supported_version (pye3d : pye3d_package) :
  (version_installed pye3d <> "0.0.4" ->
   fst (import_module pye3d) = Raises (ImportError "Unsupported version found"))
  /\ (__version__ pye3d = None ->
      version_installed pye3d = "0.0.1"
      /\ fst (import_module pye3d) = Raises (ImportError "Unsupported version found"))
  /\ (defines "Pye3DPlugin" (snd (import_module pye3d))
      <-> version_installed pye3d = "0.0.4")
  /\ (fst (import_module pye3d) = Returns tt
      <-> __version__ pye3d = Some "0.0.4").
Proof.
  unfold import_module, version_supported, defines.
  destruct (String.eqb (version_installed pye3d) "0.0.4") eqn:Hv; cbn.
  - apply String.eqb_eq in Hv.
    split; [congruence|]. split; [|split].
    + intros Hnone. unfold version_installed in *. rewrite Hnone in *. discriminate.
    + split; [auto|]. intros _. unfold preamble. set_solver.
    + split; [|reflexivity]. intros _.
      unfold version_installed in Hv. destruct (__version__ pye3d); congruence.
  - apply String.eqb_neq in Hv.
    split; [reflexivity|]. split; [|split].
    + intros Hnone. unfold version_installed. rewrite Hnone. split; reflexivity.
    + split; [|congruence]. unfold preamble. intros Hin.
      apply (bool_decide_pack _) in Hin. vm_compute in Hin. contradiction.
    + split; [discriminate|]. intros Hsome.
      unfold version_installed in Hv. rewrite Hsome in Hv. congruence.
Qed.

(** * Further properties of recording_utils.py *)

(** ** Validation, branch by branch *)

(** X1: [_assert_valid_rec_dir] returns exactly when the resolved path is a
    directory, and then it has called [resolve], [exists] and [is_dir], in
    this order, and nothing else. *)
Theorem validation_accepts_exactly_directories (exts : list string) (fs : filesystem) (p : string) :
  (result (_assert_valid_rec_dir exts fs p) = Returns tt
   <-> exists d, nodes fs !! resolve fs p = Some (Directory d))
  /\ (result (_assert_valid_rec_dir exts fs p) = Returns tt ->
      trace (_assert_valid_rec_dir exts fs p) = [CallResolve; CallExists; CallIsDir]).
Proof.
  split; [split|].
  - apply assert_valid_rec_dir_returns.
  - intros [d Hd]. rewrite (assert_valid_rec_dir_directory _ _ _ _ Hd). reflexivity.
  - intros H. destruct (assert_valid_rec_dir_returns _ _ _ H) as [d Hd].
    rewrite (assert_valid_rec_dir_directory _ _ _ _ Hd). reflexivity.
Qed.





(** X4: a regular file whose suffix, the leading dot stripped, is not in the
    table (its entries stripped likewise) is rejected with "Target at path is
    not a directory: <resolved path>" and an empty recovery. *)
Theorem non_video_file_error (exts : list string) (fs : filesystem) (p : string) :
  nodes fs !! resolve fs p = Some RegularFile ->
  normalize_extension (Path_suffix (resolve fs p)) ∉ map normalize_extension exts ->
  _assert_valid_rec_dir exts fs p =
    (Raises (InvalidRecordingException
               ("Target at path is not a directory: " +:+ resolve fs p) ""),
     [CallResolve; CallExists; CallIsDir; CallIsFile]).
Proof.
  intros Hfile Hext.
  rewrite assert_valid_rec_dir_cases, Hfile.
  rewrite bool_decide_eq_false_2 by exact Hext. reflexivity.
Qed.

Lemma non_video_file_error_witness :
  _assert_valid_rec_dir sample_video_extensions sample_fs "/recordings/notes.txt" =
    (Raises (InvalidRecordingException
               ("Target at path is not a directory: "
                +:+ resolve sample_fs "/recordings/notes.txt") ""),
     [CallResolve; CallExists; CallIsDir; CallIsFile]).
Proof.
  apply (non_video_file_error sample_video_extensions sample_fs "/recordings/notes.txt").
  - vm_compute; reflexivity.
  - intros Hin. apply (bool_decide_pack _) in Hin. vm_compute in Hin. contradiction.
Defined.

(** X5: something that exists but is neither a directory nor a regular file
    (a socket, a device) is "not a directory" whatever its name: the
    [is_file] guard of [is_video_file] keeps a video suffix from counting. *)
Theorem special_file_is_never_a_video (exts : list string) (fs : filesystem) (p : string) :
  nodes fs !! resolve fs p = Some SpecialFile ->
  _assert_valid_rec_dir exts fs p =
    (Raises (InvalidRecordingException
               ("Target at path is not a directory: " +:+ resolve fs p) ""),
     [CallResolve; CallExists; CallIsDir; CallIsFile]).
Proof. intros H. rewrite assert_valid_rec_dir_cases, H. reflexivity. Qed.

Lemma special_file_is_never_a_video_witness :
  let fs := {| resolve := fun p => p; nodes := {[ "/dev/video0.mp4" := SpecialFile ]} |} in
  _assert_valid_rec_dir sample_video_extensions fs "/dev/video0.mp4" =
    (Raises (InvalidRecordingException
               ("Target at path is not a directory: " +:+ resolve fs "/dev/video0.mp4") ""),
     [CallResolve; CallExists; CallIsDir; CallIsFile]).
Proof.
  apply (special_file_is_never_a_video sample_video_extensions
           {| resolve := fun p => p; nodes := {[ "/dev/video0.mp4" := SpecialFile ]} |}
           "/dev/video0.mp4").
  vm_compute; reflexivity.
Defined.

(** X6: a regular file whose name has no suffix for [Path.suffix] (no dot, a
    leading dot only as in [.mp4], or a trailing dot) is never taken for a
    video, unless the table itself holds an empty entry. *)
Theorem file_without_suffix_is_not_a_video (exts : list string) (fs : filesystem) (p : string) :
  nodes fs !! resolve fs p = Some RegularFile ->
  Path_suffix (resolve fs p) = "" ->
  "" ∉ exts -> "." ∉ exts ->
  result (_assert_valid_rec_dir exts fs p) =
    Raises (InvalidRecordingException
              ("Target at path is not a directory: " +:+ resolve fs p) "").
Proof.
  intros Hfile Hsuffix Hempty Hdot.
  rewrite assert_valid_rec_dir_cases, Hfile, Hsuffix.
  rewrite bool_decide_eq_false_2; [reflexivity|].
  cbn. intros Hin. apply list_elem_of_fmap in Hin as (e & He & Hin).
  destruct e as [|c e]; [contradiction|].
  cbn in He.
  destruct c as [[] [] [] [] [] [] [] []]; cbn in He; subst; try discriminate;
    contradiction.
Qed.

Lemma file_without_suffix_is_not_a_video_witness :
  let fs := {| resolve := fun p => p; nodes := {[ "/recordings/.mp4" := RegularFile ]} |} in
  result (_assert_valid_rec_dir sample_video_extensions fs "/recordings/.mp4") =
    Raises (InvalidRecordingException
              ("Target at path is not a directory: " +:+ resolve fs "/recordings/.mp4") "").
Proof.
  apply (file_without_suffix_is_not_a_video sample_video_extensions
           {| resolve := fun p => p; nodes := {[ "/recordings/.mp4" := RegularFile ]} |}
           "/recordings/.mp4").
  - vm_compute; reflexivity.
  - vm_compute; reflexivity.
  - intros Hin. apply (bool_decide_pack _) in Hin. vm_compute in Hin. contradiction.
  - intros Hin. apply (bool_decide_pack _) in Hin. vm_compute in Hin. contradiction.
Defined.

(** ** Classification, result by result *)

(** The result of [get_recording_type] on a directory, by what it holds. *)
Lemma get_recording_type_directory (exts : list string) (fs : filesystem) (p : string) (d : directory) :
  nodes fs !! resolve fs p = Some (Directory d) ->
  result (get_recording_type exts fs p) =
    if new_style_info d then Returns NEW_STYLE
    else
      match info_csv d with
      | Absent => Raises FileNotFoundError
      | Unreadable f => Raises (OSFault f)
      | Readable m =>
          match m !! "Data Format Version" with
          | Some _ => Returns OLD_STYLE
          | None =>
              match info_json d with
              | Readable _ => Returns INVISIBLE
              | Unreadable f => Raises (OSFault f)
              | Absent =>
                  if bool_decide (m !! "Capture Software" = Some "Pupil Mobile")
                  then Returns MOBILE
                  else Raises (InvalidRecordingException
                                 "There is no info file in the target directory." "")
              end
          end
      end.
Proof.
  intros Hd. on_directory Hd.
  destruct d as [ns csv js]; cbn.
  destruct ns, csv as [ | f | m]; cbn; try reflexivity.
  destruct (m !! "Data Format Version") as [v|] eqn:Hv;
    [ rewrite (contains_Some _ _ _ Hv) | rewrite (contains_None _ _ Hv) ];
    cbn; [reflexivity|].
  destruct js as [ | f' | j]; cbn; try reflexivity.
  destruct (m !! "Capture Software") as [software|] eqn:Hs; cbn.
  - destruct (String.eqb software "Pupil Mobile") eqn:He; cbn.
    + apply String.eqb_eq in He as ->.
      rewrite bool_decide_eq_true_2 by reflexivity. reflexivity.
    + apply String.eqb_neq in He.
      rewrite bool_decide_eq_false_2 by congruence. reflexivity.
  - rewrite bool_decide_eq_false_2 by discriminate. reflexivity.
Qed.

(** On anything but a directory the result is validation's error. *)
Lemma get_recording_type_not_directory (exts : list string) (fs : filesystem) (p : string) :
  (forall d, nodes fs !! resolve fs p <> Some (Directory d)) ->
  exists e, result (_assert_valid_rec_dir exts fs p) = Raises e
            /\ result (get_recording_type exts fs p) = Raises e.
Proof.
  intros Hnot.
  destruct (result (_assert_valid_rec_dir exts fs p)) as [[]|e] eqn:Hv.
  - destruct (assert_valid_rec_dir_returns _ _ _ Hv) as [d Hd].
    exfalso. exact (Hnot d Hd).
  - exists e. split; [reflexivity|].
    unfold get_recording_type.
    rewrite (bind_result_raises _ _ _ Hv). reflexivity.
Qed.

(** Case analysis for the results of [get_recording_type]: split on the node
    at the resolved path; on a directory the result is given by its three
    files, elsewhere it is validation's error. *)
Tactic Notation "classify_cases" constr(exts) constr(fs) constr(p)
    "as" ident(d) ident(Hd) :=
  destruct (nodes fs !! resolve fs p) as [[ | d | ]|] eqn:Hd;
  [ | rewrite (get_recording_type_directory exts fs p d Hd) | | ];
  try (let Hn := fresh "Hn" in
       assert (Hn : forall d', nodes fs !! resolve fs p <> Some (Directory d'))
         by (rewrite Hd; discriminate);
       let e := fresh "e" in
       let Hv := fresh "Hv" in
       destruct (get_recording_type_not_directory exts fs p Hn) as (e & Hv & ->);
       clear Hn;
       rewrite assert_valid_rec_dir_cases, Hd in Hv; cbn [result fst] in Hv;
       try match type of Hv with
           | context [bool_decide ?P] => destruct (bool_decide P)
           end;
       injection Hv as <-).

(** X7: the result is [NEW_STYLE] exactly when the path is a directory that
    holds the structured marker; the legacy CSV and the device JSON are not
    looked at. *)
Theorem new_style_iff (exts : list string) (fs : filesystem) (p : string) :
  result (get_recording_type exts fs p) = Returns NEW_STYLE
  <-> exists d, nodes fs !! resolve fs p = Some (Directory d)
                /\ new_style_info d = true.
Proof.
  classify_cases exts fs p as d Hd;
    try solve [split; [discriminate | intros (d' & Hd' & _); discriminate]].
  destruct d as [[] csv js]; cbn.
  - split; eauto.
  - split.
    + destruct csv as [ | f | m]; try discriminate.
      destruct (m !! "Data Format Version"); try discriminate.
      destruct js; try discriminate.
      destruct (bool_decide _); discriminate.
    + intros (d' & [= <-] & Hn). discriminate.
Qed.

#[local] Set Warnings "-clear-no-such-hyp".

(** Split on the three files of the directory [d] and close the goal. *)
Ltac on_directory_contents d :=
  destruct d as [ns csv js]; cbn;
  destruct ns, csv as [ | f | m], js as [ | f' | j]; cbn;
  try (destruct (m !! "Data Format Version") as [v|] eqn:Hversion; cbn);
  try case_bool_decide;
  naive_solver.

(** X8: the result is [OLD_STYLE] exactly when the path is a directory without
    the structured marker whose legacy CSV is readable and has the key "Data
    Format Version"; the device JSON is not looked at. *)
Theorem old_style_iff (exts : list string) (fs : filesystem) (p : string) :
  result (get_recording_type exts fs p) = Returns OLD_STYLE
  <-> exists d m v,
        nodes fs !! resolve fs p = Some (Directory d)
        /\ new_style_info d = false
        /\ info_csv d = Readable m
        /\ m !! "Data Format Version" = Some v.
Proof.
  classify_cases exts fs p as d Hd; try solve [naive_solver].
  on_directory_contents d.
Qed.

(** X9: the result is [INVISIBLE] exactly when the path is a directory without
    the structured marker whose legacy CSV is readable and lacks "Data Format
    Version", and whose device JSON is readable: without a readable legacy
    CSV no directory is classified as [INVISIBLE]. *)
Theorem invisible_iff (exts : list string) (fs : filesystem) (p : string) :
  result (get_recording_type exts fs p) = Returns INVISIBLE
  <-> exists d m j,
        nodes fs !! resolve fs p = Some (Directory d)
        /\ new_style_info d = false
        /\ info_csv d = Readable m
        /\ m !! "Data Format Version" = None
        /\ info_json d = Readable j.
Proof.
  classify_cases exts fs p as d Hd; try solve [naive_solver].
  on_directory_contents d.
Qed.

(** X10: the result is [MOBILE] exactly when the path is a directory without
    the structured marker and without the device JSON file, whose legacy CSV
    is readable, lacks "Data Format Version" and has "Capture Software" equal
    to "Pupil Mobile". *)
Theorem mobile_iff (exts : list string) (fs : filesystem) (p : string) :
  result (get_recording_type exts fs p) = Returns MOBILE
  <-> exists d m,
        nodes fs !! resolve fs p = Some (Directory d)
        /\ new_style_info d = false
        /\ info_csv d = Readable m
        /\ m !! "Data Format Version" = None
        /\ m !! "Capture Software" = Some "Pupil Mobile"
        /\ info_json d = Absent.
Proof.
  classify_cases exts fs p as d Hd; try solve [naive_solver].
  on_directory_contents d.
Qed.

(** X11: the error "There is no info file in the target directory." is raised
    exactly for a directory without the structured marker and without the
    device JSON file whose legacy CSV is readable, lacks "Data Format Version"
    and does not name "Pupil Mobile" as its "Capture Software". *)
Theorem no_info_file_iff (exts : list string) (fs : filesystem) (p : string) :
  result (get_recording_type exts fs p) =
    Raises (InvalidRecordingException "There is no info file in the target directory." "")
  <-> exists d m,
        nodes fs !! resolve fs p = Some (Directory d)
        /\ new_style_info d = false
        /\ info_csv d = Readable m
        /\ m !! "Data Format Version" = None
        /\ m !! "Capture Software" <> Some "Pupil Mobile"
        /\ info_json d = Absent.
Proof.
  classify_cases exts fs p as d Hd; try solve [cbn; naive_solver].
  on_directory_contents d.
Qed.

(** X12: [get_recording_type] raises [FileNotFoundError] exactly for a
    directory that has neither the structured marker nor the legacy CSV file,
    whatever its device JSON. *)
Theorem file_not_found_iff (exts : list string) (fs : filesystem) (p : string) :
  result (get_recording_type exts fs p) = Raises FileNotFoundError
  <-> exists d,
        nodes fs !! resolve fs p = Some (Directory d)
        /\ new_style_info d = false
        /\ info_csv d = Absent.
Proof.
  classify_cases exts fs p as d Hd; try solve [naive_solver].
  on_directory_contents d.
Qed.


(** X14: [get_recording_type] never lets a [KeyError] escape (a legacy CSV
    without "Capture Software" is a plain mismatch), nor an [AssertionError]
    or an [ImportError]. *)
Theorem get_recording_type_never_raises_key_error (exts : list string) (fs : filesystem) (p : string) :
  (forall k, result (get_recording_type exts fs p) <> Raises (KeyError k))
  /\ result (get_recording_type exts fs p) <> Raises AssertionError
  /\ (forall msg, result (get_recording_type exts fs p) <> Raises (ImportError msg)).
Proof.
  classify_cases exts fs p as d Hd; try solve [naive_solver].
  on_directory_contents d.
Qed.

(** X15: the OldStyle and the Mobile predicate never both hold, and they raise
    the same exceptions: each raises exactly what the legacy CSV read
    raises. *)
Theorem old_style_and_mobile_exclude_each_other (fs : filesystem) (p : string) :
  ~ (matches OLD_STYLE fs p /\ matches MOBILE fs p)
  /\ (forall e,
        result (was_recording_opened_in_player_before fs p) = Raises e
        <-> result (is_pupil_mobile_recording fs p) = Raises e)
  /\ (forall e,
        result (was_recording_opened_in_player_before fs p) = Raises e
        <-> result (read_info_csv_file fs p) = Raises e).
Proof.
  unfold matches, predicate.
  rewrite was_recording_opened_in_player_before_cases, is_pupil_mobile_recording_cases.
  unfold read_info_csv_file, perform, result; cbn [fst].
  destruct (open_in fs p info_csv) as [m|e0].
  - split; [|naive_solver].
    intros [[= Hold] [= Hmob]].
    rewrite Hold in Hmob.
    destruct (m !! "Capture Software"); [|discriminate].
    rewrite andb_false_r in Hmob. discriminate.
  - naive_solver.
Qed.

(** X16: the calls of [get_recording_type] are always an initial part of
    resolve, exists, is_dir, marker probe, CSV read, JSON read, CSV read, or
    the four [Path] calls of a failed validation; the legacy CSV is read a
    second time exactly when the result is [MOBILE] or the "no info file"
    error. *)
Theorem get_recording_type_calls (exts : list string) (fs : filesystem) (p : string) :
  let all_calls :=
    [CallResolve; CallExists; CallIsDir; CallContainsInfoFile;
     CallReadInfoCsv; CallReadInfoJson; CallReadInfoCsv] in
  (trace (get_recording_type exts fs p) `prefix_of` all_calls
   \/ trace (get_recording_type exts fs p)
      = [CallResolve; CallExists; CallIsDir; CallIsFile])
  /\ (trace (get_recording_type exts fs p) = all_calls
      <-> result (get_recording_type exts fs p) = Returns MOBILE
          \/ result (get_recording_type exts fs p)
             = Raises (InvalidRecordingException
                         "There is no info file in the target directory." "")).
Proof.
  cbn zeta.
  destruct (nodes fs !! resolve fs p) as [[ | d | ]|] eqn:Hd.
  2: { on_directory Hd. destruct d as [ns csv js]; cbn.
       destruct ns, csv as [ | f | m], js as [ | f' | j]; cbn;
         try destruct (contains m "Data Format Version"); cbn;
         try (destruct (m !! "Capture Software") as [software|]; cbn;
              [destruct (String.eqb software "Pupil Mobile"); cbn|]);
         (split; [left; eexists; reflexivity | naive_solver]). }
  all: unfold get_recording_type; rewrite assert_valid_rec_dir_cases, Hd;
    cbn; try destruct (bool_decide _); cbn;
    (split; [first [right; reflexivity | left; eexists; reflexivity]
            | naive_solver]).
Qed.

(** * Further properties of runtime_hook_sounddevice.py *)

Lemma call_patched_portaudio (f : pyfun) :
  call_pyfun (_find_library_patched f) "portaudio" = Some "libportaudio.so.2".
Proof. reflexivity. Qed.

(** X17: however many patches are stacked, a name other than "portaudio" is
    answered by the function at the bottom of the stack; "portaudio" is
    answered with "libportaudio.so.2" as soon as one patch is installed, and
    by the bottom function when none is. *)
Theorem stacked_patches_lookup (f : pyfun) (name : string) :
  (name <> "portaudio" -> call_pyfun f name = innermost f name)
  /\ (0 < patches f -> call_pyfun f "portaudio" = Some "libportaudio.so.2")
  /\ (patches f = 0 -> call_pyfun f "portaudio" = innermost f "portaudio").
Proof.
  split; [|split].
  - intros Hne. apply String.eqb_neq in Hne.
    induction f as [g | original IH]; cbn; [reflexivity|].
    rewrite Hne. exact IH.
  - destruct f; cbn; [lia | reflexivity].
  - destruct f; cbn; [reflexivity | discriminate].
Qed.

Lemma patched_is_new (f : pyfun) : _find_library_patched f <> f.
Proof. induction f as [g | f IH]; [discriminate | intros [= H]; exact (IH H)]. Qed.

Lemma run_calls_snoc (self : SoundDevicePatcher) (cs : list patcher_call) (c : patcher_call) (st : interp) :
  run_calls self (cs ++ [c]) st = run_call self (run_calls self cs st) c.
Proof. unfold run_calls. rewrite fold_left_app. reflexivity. Qed.

(** X18: after any run of [patch_library] and [restore_library] calls on one
    patcher, [find_library] is decided by the last call alone: the patched
    closure over the patcher's original after a patch (patches never stack),
    the original after a restore, and what it was when no call was made; each
    call logs exactly one record. *)
Theorem patcher_calls_invariant (self : SoundDevicePatcher) (cs : list patcher_call) (st : interp) :
  find_library (run_calls self cs st) =
    match last cs with
    | None => find_library st
    | Some DoPatch => _find_library_patched (original_find_library self)
    | Some DoRestore => original_find_library self
    end
  /\ length (debug_log (run_calls self cs st)) = length (debug_log st) + length cs.
Proof.
  induction cs as [|c cs IH] using rev_ind.
  - cbn. split; [reflexivity | lia].
  - rewrite run_calls_snoc, last_snoc, length_app. destruct IH as [_ IHlog].
    destruct c; cbn; rewrite length_app, IHlog; cbn; split; (reflexivity || lia).
Qed.

(** X19: with two patchers created one after the other, restoring the second
    and then the first brings the first function back; restoring the first and
    then the second leaves the first patcher's closure installed, which is a
    different function object and still answers "portaudio". *)
Theorem two_patchers_restore_order (st : interp) :
  let first := fst (__init__ st) in
  let st1 := snd (__init__ st) in
  let second := fst (__init__ st1) in
  let st2 := snd (__init__ st1) in
  find_library (restore_library first (restore_library second st2)) = find_library st
  /\ find_library (restore_library second (restore_library first st2))
     = _find_library_patched (find_library st)
  /\ find_library (restore_library second (restore_library first st2)) <> find_library st
  /\ call_pyfun (find_library (restore_library second (restore_library first st2)))
       "portaudio" = Some "libportaudio.so.2".
Proof.
  cbn. repeat split. apply patched_is_new.
Qed.

(** X20: when the import returns, [main] returns, [find_library] is the
    function that was installed before [main] ran, whatever the import bound
    it to, and the log ends with the restore record and the success
    record. *)
Theorem main_success (import_sounddevice : interp -> outcome unit * interp) (st st2 : interp) :
  import_sounddevice (snd (__init__ st)) = (Returns tt, st2) ->
  main import_sounddevice st =
    (Returns tt,
     {| find_library := find_library st;
        debug_log := debug_log st2
          ++ ["Restored original `ctypes.util.find_library`.";
              "sounddevice import successful!"] |}).
Proof.
  intros Himport. unfold main. cbn in *. rewrite Himport. cbn.
  rewrite <- app_assoc. reflexivity.
Qed.

Lemma main_success_witness :
  let st := {| find_library := Native (fun _ => None); debug_log := [] |} in
  let import_sounddevice :=
    fun s : interp =>
      (Returns tt, {| find_library := Native (fun _ => Some "elsewhere");
                      debug_log := debug_log s |}) in
  main import_sounddevice st =
    (Returns tt,
     {| find_library := find_library st;
        debug_log := debug_log (snd (import_sounddevice (snd (__init__ st))))
          ++ ["Restored original `ctypes.util.find_library`.";
              "sounddevice import successful!"] |}).
Proof.
  cbn zeta.
  apply (main_success
           (fun s : interp =>
              (Returns tt, {| find_library := Native (fun _ => Some "elsewhere");
                              debug_log := debug_log s |}))
           {| find_library := Native (fun _ => None); debug_log := [] |}).
  reflexivity.
Defined.

(** X21: when the import raises, [main] raises the same exception without
    calling [restore_library]: the interpreter is left as the import left it,
    and if the import did not rebind [find_library] the patch stays
    installed. *)
Theorem main_failure (import_sounddevice : interp -> outcome unit * interp) (st st2 : interp) (e : exn) :
  import_sounddevice (snd (__init__ st)) = (Raises e, st2) ->
  main import_sounddevice st = (Raises e, st2)
  /\ (find_library st2 = find_library (snd (__init__ st)) ->
      find_library (snd (main import_sounddevice st))
        = _find_library_patched (find_library st)
      /\ find_library (snd (main import_sounddevice st)) <> find_library st
      /\ call_pyfun (find_library (snd (main import_sounddevice st))) "portaudio"
         = Some "libportaudio.so.2").
Proof.
  intros Himport.
  assert (Hmain : main import_sounddevice st = (Raises e, st2)).
  { unfold main. cbn in *. rewrite Himport. reflexivity. }
  split; [exact Hmain|].
  rewrite Hmain. cbn. intros ->. repeat split. apply patched_is_new.
Qed.

Lemma main_failure_witness :
  let st := {| find_library := Native (fun _ => None); debug_log := [] |} in
  let import_sounddevice :=
    fun s : interp => (@Raises unit (ImportError "No module named 'sounddevice'"), s) in
  main import_sounddevice st
    = (Raises (ImportError "No module named 'sounddevice'"), snd (__init__ st))
  /\ (find_library (snd (__init__ st)) = find_library (snd (__init__ st)) ->
      find_library (snd (main import_sounddevice st))
        = _find_library_patched (find_library st)
      /\ find_library (snd (main import_sounddevice st)) <> find_library st
      /\ call_pyfun (find_library (snd (main import_sounddevice st))) "portaudio"
         = Some "libportaudio.so.2").
Proof.
  cbn zeta.
  apply (main_failure
           (fun s : interp => (@Raises unit (ImportError "No module named 'sounddevice'"), s))
           {| find_library := Native (fun _ => None); debug_log := [] |}).
  reflexivity.
Defined.


(** * Properties of the methods of [Pye3DPlugin] *)

Import Pye3DPluginClass.

Section PluginFacts.

Context `{E : Externals}.

(** X22: with a visualizer whose [open_window] yields a window and whose
    [close_window] removes it, [debug_window_toggle] flips whether the debug
    window is open, two toggles bring the first state back, and each toggle
    makes exactly one call on the visualizer: [close_window] when a window was
    open, [open_window] otherwise. *)
Theorem debug_window_toggle_flips (self : plugin) :
  opens_window -> closes_window ->
  is_debug_window_open (debug_window_toggle self) = negb (is_debug_window_open self)
  /\ is_debug_window_open (debug_window_toggle (debug_window_toggle self))
     = is_debug_window_open self
  /\ calls (debug_window_toggle self)
     = calls self ++ [if is_debug_window_open self then CloseWindow else OpenWindow].
Proof.
  intros Hopen Hclose.
  assert (Hflip : forall s, is_debug_window_open (debug_window_toggle s)
                            = negb (is_debug_window_open s)).
  { intros s.
    unfold debug_window_toggle, debug_window_open, debug_window_close,
      is_debug_window_open.
    destruct (has_window (debugVisualizer3D s)) eqn:Hs; cbn; rewrite ?Hs; cbn;
      [apply Hclose | apply Hopen]. }
  split; [apply Hflip|]. split.
  - rewrite !Hflip. apply negb_involutive.
  - unfold debug_window_toggle, debug_window_open, debug_window_close,
      is_debug_window_open.
    destruct (has_window (debugVisualizer3D self)) eqn:Hs; cbn; rewrite ?Hs;
      reflexivity.
Qed.

(** X23: with such a visualizer, [debug_window_open] leaves the window open
    and a second call changes nothing (no second window is opened);
    [cleanup] leaves it closed; a second [debug_window_close] and a
    [debug_window_update] on a closed window change nothing. *)
Theorem debug_window_open_and_close_settle (self : plugin) :
  opens_window -> closes_window ->
  is_debug_window_open (debug_window_open self) = true
  /\ debug_window_open (debug_window_open self) = debug_window_open self
  /\ is_debug_window_open (cleanup self) = false
  /\ debug_window_close (debug_window_close self) = debug_window_close self
  /\ debug_window_update (debug_window_close self) = debug_window_close self.
Proof.
  intros Hopen Hclose.
  assert (Ho : is_debug_window_open (debug_window_open self) = true).
  { unfold debug_window_open.
    destruct (is_debug_window_open self) eqn:Hs; cbn; [exact Hs|].
    unfold is_debug_window_open; cbn. apply Hopen. }
  assert (Hc : is_debug_window_open (debug_window_close self) = false).
  { unfold debug_window_close.
    destruct (is_debug_window_open self) eqn:Hs; cbn; [|exact Hs].
    unfold is_debug_window_open; cbn. apply Hclose. }
  repeat split; try assumption.
  - unfold debug_window_open at 1. rewrite Ho. reflexivity.
  - unfold debug_window_close at 1. rewrite Hc. reflexivity.
  - unfold debug_window_update. rewrite Hc. reflexivity.
Qed.

(** X24: [_process_camera_changes] keeps the debug window as it was, open or
    closed, also when it replaces the visualizer (given that [open_window]
    yields a window and that a new visualizer has none). *)
Theorem camera_change_keeps_debug_window (self : plugin) :
  opens_window -> starts_without_window ->
  is_debug_window_open (_process_camera_changes self) = is_debug_window_open self.
Proof.
  intros Hopen Hnew. unfold _process_camera_changes.
  destruct (camera_eq _ _); [reflexivity|].
  cbn zeta.
  unfold debug_window_close, debug_window_open, is_debug_window_open; cbn.
  destruct (has_window (debugVisualizer3D self)) eqn:Hs; cbn.
  - rewrite ?Hnew. cbn. apply Hopen.
  - rewrite ?Hs. cbn. apply Hnew.
Qed.

(** X25: when the camera model built from [g_pool] differs from the stored
    one, [_process_camera_changes] stores the new model, hands it to the
    detector's [reset_camera], and its calls are, in this order: the debug
    log record, [reset_camera], [close_window] if the debug window was open,
    the new [Eye_Visualizer], and [open_window] if the window was open. An
    open window is thus closed before its visualizer is replaced. *)
Theorem camera_change_calls (self : plugin) :
  let camera' := CameraModel (focal_length (pool self)) (resolution (pool self)) in
  starts_without_window ->
  camera_eq (camera self) camera' = false ->
  camera (_process_camera_changes self) = camera'
  /\ detector (_process_camera_changes self) = reset_camera (detector self) camera'
  /\ pool (_process_camera_changes self) = pool self
  /\ calls (_process_camera_changes self) =
       calls self
       ++ [LogDebug ("Camera model change detected: " +:+ camera_str camera'
                     +:+ ". Resetting 3D detector.");
           ResetCamera]
       ++ (if is_debug_window_open self then [CloseWindow] else [])
       ++ [NewEyeVisualizer]
       ++ (if is_debug_window_open self then [OpenWindow] else []).
Proof.
  intros camera' Hnew Hchanged. unfold _process_camera_changes.
  fold camera'. rewrite Hchanged. cbn zeta.
  unfold debug_window_close, debug_window_open, is_debug_window_open; cbn.
  destruct (has_window (debugVisualizer3D self)) eqn:Hs; cbn.
  - rewrite ?Hnew. cbn. rewrite <- ?app_assoc. repeat split; reflexivity.
  - rewrite ?Hs. cbn. rewrite <- ?app_assoc. repeat split; reflexivity.
Qed.

(** When the camera model is unchanged, nothing happens. *)
Lemma camera_unchanged (self : plugin) :
  camera_eq (camera self)
    (CameraModel (focal_length (pool self)) (resolution (pool self))) = true ->
  _process_camera_changes self = self.
Proof. intros H. unfold _process_camera_changes. rewrite H. reflexivity. Qed.

Lemma eq_str_method (datum : gmap string value) :
  eq_str (default (VStr "") (datum !! "method")) "2d c++" = true <-> is_2d datum.
Proof.
  unfold is_2d. destruct (datum !! "method") as [[n|s|o]|]; cbn; try naive_solver.
  rewrite String.eqb_eq. naive_solver.
Qed.

Lemma first_2d_datum_None (l : list (gmap string value)) :
  first_2d_datum l = None <-> Forall (fun datum => ~ is_2d datum) l.
Proof.
  induction l as [|datum l IH]; cbn.
  - split; [constructor | reflexivity].
  - destruct (eq_str _ _) eqn:Hm.
    + apply eq_str_method in Hm. split; [discriminate|].
      intros H. inversion H; subst. contradiction.
    + rewrite IH. split.
      * intros H. constructor; [|exact H].
        intros H2. apply eq_str_method in H2. congruence.
      * intros H. inversion H; assumption.
Qed.

Lemma first_2d_datum_Some (l : list (gmap string value)) (datum : gmap string value) :
  first_2d_datum l = Some datum <->
  exists before after,
    l = before ++ datum :: after
    /\ Forall (fun d => ~ is_2d d) before
    /\ is_2d datum.
Proof.
  induction l as [|d l IH]; cbn.
  - split; [discriminate|]. intros (before & after & H & _).
    destruct before; discriminate.
  - destruct (eq_str _ _) eqn:Hm.
    + apply eq_str_method in Hm. split.
      * intros [= <-]. exists [], l. repeat split; [constructor | exact Hm].
      * intros (before & after & Hl & Hb & Hd).
        destruct before as [|b before]; cbn in Hl.
        -- congruence.
        -- injection Hl as <- _. inversion Hb; subst. contradiction.
    + assert (Hnot : ~ is_2d d).
      { intros H2. apply eq_str_method in H2. congruence. }
      rewrite IH. split.
      * intros (before & after & -> & Hb & Hd).
        exists (d :: before), after. repeat split; [constructor; assumption | exact Hd].
      * intros (before & after & Hl & Hb & Hd).
        destruct before as [|b before]; cbn in Hl.
        -- injection Hl as -> _. contradiction.
        -- injection Hl as <- ->. inversion Hb; subst.
           exists before, after. repeat split; assumption.
Qed.

(** X26: [detect] raises [RuntimeError] exactly when no datum of
    [previous_detection_results] (the empty list when the keyword is not
    passed) has "method" equal to "2d c++"; it then carries the message "No 2D
    detection result! Needed for pye3D!" and the detector has not been called:
    the instance is as [_process_camera_changes] left it. *)
Theorem detect_needs_2d_datum (self : plugin) (frame : frame)
    (previous : option (list (gmap string value))) :
  ((exists msg, fst (detect self frame previous) = Raised (RuntimeError msg))
   <-> Forall (fun datum => ~ is_2d datum) (default [] previous))
  /\ (Forall (fun datum => ~ is_2d datum) (default [] previous) ->
      detect self frame previous =
        (Raised (RuntimeError "No 2D detection result! Needed for pye3D!"),
         _process_camera_changes self)).
Proof.
  unfold detect. cbn zeta.
  destruct (first_2d_datum (default [] previous)) as [datum|] eqn:Hfirst.
  - destruct (update_and_detect _ _ _ _) as [raw detector'].
    split; [split|].
    + intros [msg H]. destruct (_ !! "location"); cbn in H; discriminate.
    + intros H. apply first_2d_datum_None in H. congruence.
    + intros H. apply first_2d_datum_None in H. congruence.
  - split; [|reflexivity].
    split; [|eauto]. intros _. apply first_2d_datum_None. exact Hfirst.
Qed.

(** X27: when [detect] returns, the detector was called once, with the first
    datum whose "method" is "2d c++"; the returned dictionary has "timestamp"
    from the frame, "topic" "pupil.<eye_id>.3d", "id" the eye id, "method" "3d
    c++" and "norm_pos" computed from the detector's "location"; every other
    key is as the detector returned it. *)
Theorem detect_stamps_result (self : plugin) (frame : frame)
    (previous : option (list (gmap string value)))
    (result : gmap string value) (self' : plugin) :
  detect self frame previous = (Normal result, self') ->
  let self1 := _process_camera_changes self in
  exists datum before after,
    default [] previous = before ++ datum :: after
    /\ Forall (fun d => ~ is_2d d) before
    /\ is_2d datum
    /\ calls self' = calls self1 ++ [UpdateAndDetect datum (is_debug_window_open self1)]
    /\ let raw := fst (update_and_detect (detector self1) datum (gray frame)
                         (is_debug_window_open self1)) in
       detector self' = snd (update_and_detect (detector self1) datum (gray frame)
                                (is_debug_window_open self1))
       /\ result !! "timestamp" = Some (timestamp frame)
       /\ result !! "topic" = Some (VStr ("pupil." +:+ pretty (eye_id (pool self1)) +:+ ".3d"))
       /\ result !! "id" = Some (VInt (eye_id (pool self1)))
       /\ result !! "method" = Some (VStr "3d c++")
       /\ (exists location,
             raw !! "location" = Some location
             /\ result !! "norm_pos"
                = Some (normalize location (width frame) (height frame)))
       /\ (forall k, k ∉ ["timestamp"; "topic"; "id"; "method"; "norm_pos"] ->
                     result !! k = raw !! k).
Proof.
  unfold detect. cbn zeta.
  destruct (first_2d_datum (default [] previous)) as [datum|] eqn:Hfirst;
    [|discriminate].
  apply first_2d_datum_Some in Hfirst as (before & after & Hl & Hb & Hd).
  destruct (update_and_detect _ _ _ _) as [raw detector'] eqn:Hupd.
  destruct (_ !! "location") as [location|] eqn:Hloc; [|discriminate].
  intros [= <- <-].
  exists datum, before, after.
  repeat (split; [assumption || reflexivity |]).
  cbn. rewrite Hupd. cbn.
  rewrite !lookup_insert_ne in Hloc by discriminate.
  split; [reflexivity|].
  repeat (split; [ by simplify_map_eq |]).
  split.
  - exists location. split; [exact Hloc|]. by simplify_map_eq.
  - intros k Hk.
    rewrite !lookup_insert_ne; [reflexivity|..]; intros <-; apply Hk; set_solver.
Qed.

(** X28: the only [KeyError] of [detect] is for "location", raised exactly
    when a 2D datum was found and the detector's result has no "location". *)
Theorem detect_key_error (self : plugin) (frame : frame)
    (previous : option (list (gmap string value))) (k : string) :
  fst (detect self frame previous) = Raised (KeyError k)
  <-> k = "location"
      /\ exists datum,
           first_2d_datum (default [] previous) = Some datum
           /\ fst (update_and_detect (detector (_process_camera_changes self)) datum
                     (gray frame)
                     (is_debug_window_open (_process_camera_changes self)))
              !! "location" = None.
Proof.
  unfold detect. cbn zeta.
  destruct (first_2d_datum (default [] previous)) as [datum|] eqn:Hfirst.
  - destruct (update_and_detect _ _ _ _) as [raw detector'] eqn:Hupd. cbn.
    rewrite !lookup_insert_ne by discriminate.
    destruct (raw !! "location") eqn:Hloc; cbn.
    + split; [discriminate|]. intros (_ & datum' & [= <-] & H).
      rewrite Hupd in H. cbn in H. congruence.
    + split.
      * intros [= <-]. split; [reflexivity|]. exists datum.
        split; [reflexivity|]. rewrite Hupd. exact Hloc.
      * intros [-> _]. reflexivity.
  - cbn. split; [discriminate|]. intros (_ & datum' & H & _). discriminate.
Qed.

(** X29: [on_notify], after the base class's [on_notify]: a notification
    without "subject" raises [KeyError]; the model is reset when the subject
    is "pupil_detector.3d.reset_model" and the notification has no "id" or
    its "id" equals the eye id; every other notification with a subject
    changes nothing more. *)
Theorem on_notify_resets_when_addressed
    (super_on_notify : plugin -> gmap string value -> plugin)
    (self : plugin) (notification : gmap string value) :
  let self1 := record SuperOnNotify (super_on_notify self notification) in
  let addressed :=
    notification !! "subject" = Some (VStr "pupil_detector.3d.reset_model")
    /\ (notification !! "id" = None
        \/ notification !! "id" = Some (VInt (eye_id (pool self1)))) in
  (notification !! "subject" = None ->
   on_notify super_on_notify self notification = (Raised (KeyError "subject"), self1))
  /\ (addressed ->
      on_notify super_on_notify self notification = (Normal tt, reset_model self1))
  /\ (is_Some (notification !! "subject") -> ~ addressed ->
      on_notify super_on_notify self notification = (Normal tt, self1)).
Proof.
  cbn zeta. unfold on_notify. cbn zeta.
  destruct (notification !! "subject") as [subject|] eqn:Hsub.
  2: { split; [reflexivity|]. split; [naive_solver|]. intros [x Hx]; discriminate. }
  split; [discriminate|].
  destruct subject as [n|s|o]; cbn; try (split; [naive_solver | reflexivity]).
  destruct (String.eqb s "pupil_detector.3d.reset_model") eqn:Hs.
  - apply String.eqb_eq in Hs as ->.
    destruct (notification !! "id") as [[n|s|o]|] eqn:Hid; cbn;
      try (split; [naive_solver | naive_solver]).
    destruct (Z.eqb n _) eqn:Hn.
    + apply Z.eqb_eq in Hn as ->. split; [reflexivity | naive_solver].
    + apply Z.eqb_neq in Hn. split; [naive_solver | reflexivity].
  - apply String.eqb_neq in Hs. split; [naive_solver | reflexivity].
Qed.

End PluginFacts.

(** ** The same, on the small instance *)

#[local] Existing Instance toy_externals.

Lemma debug_window_toggle_flips_witness :
  is_debug_window_open (debug_window_toggle toy_plugin)
    = negb (is_debug_window_open toy_plugin)
  /\ is_debug_window_open (debug_window_toggle (debug_window_toggle toy_plugin))
     = is_debug_window_open toy_plugin
  /\ calls (debug_window_toggle toy_plugin)
     = calls toy_plugin
       ++ [if is_debug_window_open toy_plugin then CloseWindow else OpenWindow].
Proof.
  apply (debug_window_toggle_flips toy_plugin); intros v; reflexivity.
Defined.

Lemma debug_window_open_and_close_settle_witness :
  is_debug_window_open (debug_window_open toy_plugin) = true
  /\ debug_window_open (debug_window_open toy_plugin) = debug_window_open toy_plugin
  /\ is_debug_window_open (cleanup toy_plugin) = false
  /\ debug_window_close (debug_window_close toy_plugin) = debug_window_close toy_plugin
  /\ debug_window_update (debug_window_close toy_plugin) = debug_window_close toy_plugin.
Proof.
  apply (debug_window_open_and_close_settle toy_plugin); intros v; reflexivity.
Defined.

Lemma camera_change_keeps_debug_window_witness :
  is_debug_window_open (_process_camera_changes toy_plugin)
    = is_debug_window_open toy_plugin.
Proof.
  apply (camera_change_keeps_debug_window toy_plugin).
  - intros v; reflexivity.
  - intros g f; reflexivity.
Defined.

Lemma camera_change_calls_witness :
  camera (_process_camera_changes toy_plugin) = (VObject 1, VObject 2)
  /\ detector (_process_camera_changes toy_plugin)
     = reset_camera (detector toy_plugin) (VObject 1, VObject 2)
  /\ pool (_process_camera_changes toy_plugin) = pool toy_plugin
  /\ calls (_process_camera_changes toy_plugin) =
       calls toy_plugin
       ++ [LogDebug ("Camera model change detected: "
                     +:+ camera_str (VObject 1, VObject 2)
                     +:+ ". Resetting 3D detector.");
           ResetCamera]
       ++ (if is_debug_window_open toy_plugin then [CloseWindow] else [])
       ++ [NewEyeVisualizer]
       ++ (if is_debug_window_open toy_plugin then [OpenWindow] else []).
Proof.
  apply (camera_change_calls toy_plugin).
  - intros g f; reflexivity.
  - vm_compute; reflexivity.
Defined.

Lemma detect_stamps_result_witness :
  let self1 := _process_camera_changes toy_plugin in
  let result :=
    match fst (detect toy_plugin toy_frame (Some toy_previous)) with
    | Normal r => r
    | Raised _ => ∅
    end in
  let self' := snd (detect toy_plugin toy_frame (Some toy_previous)) in
  exists datum before after,
    default [] (Some toy_previous) = before ++ datum :: after
    /\ Forall (fun d => ~ is_2d d) before
    /\ is_2d datum
    /\ calls self' = calls self1 ++ [UpdateAndDetect datum (is_debug_window_open self1)]
    /\ let raw := fst (update_and_detect (detector self1) datum (gray toy_frame)
                         (is_debug_window_open self1)) in
       detector self' = snd (update_and_detect (detector self1) datum (gray toy_frame)
                                (is_debug_window_open self1))
       /\ result !! "timestamp" = Some (timestamp toy_frame)
       /\ result !! "topic" = Some (VStr ("pupil." +:+ pretty (eye_id (pool self1)) +:+ ".3d"))
       /\ result !! "id" = Some (VInt (eye_id (pool self1)))
       /\ result !! "method" = Some (VStr "3d c++")
       /\ (exists location,
             raw !! "location" = Some location
             /\ result !! "norm_pos"
                = Some (normalize location (width toy_frame) (height toy_frame)))
       /\ (forall k, k ∉ ["timestamp"; "topic"; "id"; "method"; "norm_pos"] ->
                     result !! k = raw !! k).
Proof.
  apply (detect_stamps_result toy_plugin toy_frame (Some toy_previous)).
  reflexivity.
Defined.
